(** * godcinfo: datastore clusters and datastores per vSphere cluster

    A shallow embedding of [main.go]: the command reads the inventory of a
    vCenter through govmomi, and for every compute cluster of one datacenter
    reports the datastore clusters (storage pods) with the cluster's
    datastores in them, then the cluster's standalone datastores, as text or
    as one JSON document.

    The govmomi calls are the fields of [Inventory]: every call returns a
    value or an error.  Standard output is the text a run writes, the exit
    status is the argument of [os.Exit] (0 when [main] returns). *)

From Stdlib Require Import ZArith Lia Ascii String.
From Stdlib Require Import Floats.SpecFloat.
From stdpp Require Import gmap strings list pretty.

Local Open Scope Z_scope.

(** ** Characters that a string literal cannot hold *)

Definition LF : string := String (ascii_of_nat 10) EmptyString.
Definition DQ : string := String (ascii_of_nat 34) EmptyString.

(** [strings.Repeat]. *)
Fixpoint strings_Repeat (s : string) (count : nat) : string :=
  match count with
  | O => EmptyString
  | S n => s +:+ strings_Repeat s n
  end.

(** ** Numbers: [int64] and [float64] *)

(** The range of a signed 64-bit integer. *)
Definition int64_range (z : Z) : bool := (- 2 ^ 63 <=? z) && (z <? 2 ^ 63).

Record int64 := Int64 {
  int64_Z : Z;
  int64_in_range : int64_range int64_Z = true
}.

(** IEEE 754 binary64, as the Standard Library specifies it: 53 bits of
    mantissa, infinities at exponent 1024, rounding to nearest even. *)
Definition float64 : Type := spec_float.
Definition prec64 : Z := 53.
Definition emax64 : Z := 1024.

(** The conversion [float64(x)] of an integer: the nearest float. *)
Definition float64_of_Z (z : Z) : float64 := binary_normalize prec64 emax64 z 0 false.

Definition float64_div (x y : float64) : float64 := SFdiv prec64 emax64 x y.

(** [math.IsInf(f, 0) || math.IsNaN(f)]. *)
Definition float64_IsInfOrNaN (x : float64) : bool :=
  match x with
  | S754_infinity _ | S754_nan => true
  | _ => false
  end.

(** The untyped constant [1024 * 1024 * 1024] of lines 241, 242, 292 and 293. *)
Definition bytesPerGB : Z := 1024 * 1024 * 1024.

(** [float64(bytes) / (1024 * 1024 * 1024)]. *)
Definition toGB (bytes : int64) : float64 :=
  float64_div (float64_of_Z (int64_Z bytes)) (float64_of_Z bytesPerGB).

(** *** The verb [%.2f] of package fmt

    [strconv] writes the exact decimal value of the float, rounded half to
    even at the second decimal. *)

Definition round_half_even (num den : Z) : Z :=
  let q := num / den in
  match 2 * (num mod den) ?= den with
  | Lt => q
  | Gt => q + 1
  | Eq => if Z.even q then q else q + 1
  end.

(** The value [m * 2 ^ e] in hundredths, rounded. *)
Definition hundredths (m : positive) (e : Z) : Z :=
  if 0 <=? e then Zpos m * 2 ^ e * 100
  else round_half_even (Zpos m * 100) (2 ^ (- e)).

Definition two_digits (n : Z) : string :=
  if n <? 10 then "0" +:+ pretty n else pretty n.

Definition fmt_sign (s : bool) : string := if s then "-" else EmptyString.

Definition fmt_2f (x : float64) : string :=
  match x with
  | S754_nan => "NaN"
  | S754_infinity s => if s then "-Inf" else "+Inf"
  | S754_zero s => fmt_sign s +:+ "0.00"
  | S754_finite s m e =>
      let h := hundredths m e in
      fmt_sign s +:+ pretty (h / 100) +:+ "." +:+ two_digits (h mod 100)
  end.

(** ** Results of calls that may fail: a value, or a non-nil [error] *)

Inductive Result (A : Type) : Type :=
  | Ok (a : A)
  | Err (err : string).
Arguments Ok {A} a.
Arguments Err {A} err.

(** ** The types of main.go *)

(** Config holds our connection parameters. *)
Record Config := {
  URL : string;
  Username : string;
  Password : string;
  Insecure : bool;
  Datacenter : string;
  OutputJSON : bool
}.

(** DatastoreInfo represents information about a datastore. *)
Record DatastoreInfo := {
  di_Name : string;
  di_Capacity : float64;
  di_FreeSpace : float64
}.

(** DatastoreClusterInfo represents information about a datastore cluster. *)
Record DatastoreClusterInfo := {
  dci_Name : string;
  dci_Datastores : list DatastoreInfo
}.

(** ClusterInfo represents information about a cluster. *)
Record ClusterInfo := {
  ci_Name : string;
  ci_DatastoreClusters : list DatastoreClusterInfo;
  ci_StandaloneDatastores : list DatastoreInfo
}.

(** InfrastructureInfo represents the entire infrastructure. *)
Record InfrastructureInfo := {
  ii_Datacenter : string;
  ii_Clusters : list ClusterInfo
}.

(** ** The govmomi types the program reads *)

(** [types.ManagedObjectReference]. *)
Record ManagedObjectReference := {
  Type_ : string;
  Value : string
}.

(** [types.DatastoreSummary], the two fields read. *)
Record DatastoreSummary := {
  Capacity : int64;
  FreeSpace : int64
}.

(** [mo.Datastore]; [ds.Reference()] is [ds_Self]. *)
Record mo_Datastore := {
  ds_Self : ManagedObjectReference;
  ds_Name : string;
  ds_Summary : DatastoreSummary
}.

(** [mo.StoragePod] with the properties name and childEntity. *)
Record mo_StoragePod := {
  pod_Name : string;
  pod_ChildEntity : list ManagedObjectReference
}.

(** [mo.ClusterComputeResource] with the property datastore. *)
Record mo_ClusterComputeResource := {
  ccr_Datastore : list ManagedObjectReference
}.

(** [*object.Datacenter]. *)
Record object_Datacenter := {
  dc_Name : string;
  dc_InventoryPath : string
}.

(** [*object.ClusterComputeResource]. *)
Record object_ClusterComputeResource := {
  cluster_Name : string;
  cluster_Reference : ManagedObjectReference
}.

(** [*object.Folder]. *)
Record object_Folder := {
  folder_Reference : ManagedObjectReference
}.

(** An [object.Reference] among the children of a folder: the type switch of
    line 176 tells a [*object.StoragePod] from everything else. *)
Inductive object_Reference :=
  | StoragePodRef (pod : ManagedObjectReference)
  | OtherRef (ref : ManagedObjectReference).

(** ** The inventory: what every govmomi call answers

    The finder is bound to the datacenter by [finder.SetDatacenter], so the
    calls made after it take the datacenter. *)
Record Inventory := {
  soap_ParseURL : string -> Result unit;
  vim25_NewClient : string -> bool -> Result unit;
  sm_Login : string -> string -> Result unit;
  finder_Datacenter : string -> Result object_Datacenter;
  finder_DefaultDatacenter : Result object_Datacenter;
  finder_DatacenterList : string -> Result (list object_Datacenter);
  finder_ClusterComputeResourceList :
    object_Datacenter -> string -> Result (list object_ClusterComputeResource);
  finder_FolderList : object_Datacenter -> string -> Result (list object_Folder);
  folder_Children : object_Folder -> Result (list object_Reference);
  pc_RetrieveOne_StoragePod : ManagedObjectReference -> Result mo_StoragePod;
  pc_RetrieveOne_Cluster : ManagedObjectReference -> Result mo_ClusterComputeResource;
  pc_Retrieve_Datastores : list ManagedObjectReference -> Result (list mo_Datastore)
}.

(** ** Writing to standard output

    [Out A] is a computation that writes text and yields an [A]. *)
Definition Out (A : Type) : Type := (string * A)%type.

Definition ret {A} (a : A) : Out A := (EmptyString, a).

Definition bind {A B} (m : Out A) (k : A -> Out B) : Out B :=
  let '(o1, a) := m in
  let '(o2, b) := k a in
  (o1 +:+ o2, b).

Notation "'let*' x ':=' m 'in' k" := (bind m (fun x => k))
  (at level 10, x pattern, m at level 200, k at level 200).

(** [fmt.Printf] with the verbs already replaced, and [fmt.Println]. *)
Definition Printf (s : string) : Out unit := (s, tt).
Definition Println (s : string) : Out unit := (s +:+ LF, tt).

(** [if c { body }] for a body that only writes. *)
Definition when (c : bool) (body : Out unit) : Out unit :=
  if c then body else ret tt.

(** [for _, x := range l { s = body(s, x) }]. *)
Fixpoint range {X S : Type} (l : list X) (body : S -> X -> Out S) (s : S) : Out S :=
  match l with
  | [] => ret s
  | x :: l' => let* s' := body s x in range l' body s'
  end.

(** What a run leaves behind. *)
Record Outcome := {
  stdout : string;
  exit_code : Z
}.

(** [os.Exit(code)] after [out] was written. *)
Definition os_Exit (out : string) (code : Z) : Outcome :=
  {| stdout := out; exit_code := code |}.

(** ** parseFlags (lines 329 to 349)

    [parsed] is the configuration after [flag.Parse]: the flags, or the
    environment variables where a flag is absent.  The usage text of
    [flag.PrintDefaults] goes to standard error. *)
Definition parseFlags (parsed : Config) : Outcome + Config :=
  if String.eqb (URL parsed) EmptyString
     || String.eqb (Username parsed) EmptyString
     || String.eqb (Password parsed) EmptyString
  then
    inl (os_Exit ("Must specify vSphere URL, username, and password" +:+ LF
                  +:+ "Usage:" +:+ LF) 1)
  else inr parsed.

(** ** connectToVSphere (lines 352 to 383) *)
Definition connectToVSphere (inv : Inventory) (cfg : Config) : Result unit :=
  match soap_ParseURL inv (URL cfg) with
  | Err err => Err err
  | Ok _ =>
      match vim25_NewClient inv (URL cfg) (Insecure cfg) with
      | Err err => Err err
      | Ok _ =>
          match sm_Login inv (Username cfg) (Password cfg) with
          | Err err => Err err
          | Ok _ => Ok tt
          end
      end
  end.

(** ** One cluster of the loop of line 133 *)

(** Lines 151 to 166: the datastore folders, by three lookups in turn. *)
Definition datastoreFolders (inv : Inventory) (dc : object_Datacenter)
  : Result (list object_Folder) :=
  match finder_FolderList inv dc "*/datastores" with
  | Ok folders => Ok folders
  | Err _ =>
      match finder_FolderList inv dc "*/datastore" with
      | Ok folders => Ok folders
      | Err _ => finder_FolderList inv dc (dc_InventoryPath dc +:+ "/datastore")
      end
  end.

(** Lines 175 to 185: one child of a datastore folder. *)
Definition child_body (inv : Inventory) (storagePods : list mo_StoragePod)
    (child : object_Reference) : list mo_StoragePod :=
  match child with
  | StoragePodRef pod =>
      match pc_RetrieveOne_StoragePod inv pod with
      | Err _ => storagePods
      | Ok podInfo => storagePods ++ [podInfo]
      end
  | OtherRef _ => storagePods
  end.

(** Lines 169 to 186: one datastore folder. *)
Definition folder_body (inv : Inventory) (storagePods : list mo_StoragePod)
    (dsFolder : object_Folder) : list mo_StoragePod :=
  match folder_Children inv dsFolder with
  | Err _ => storagePods
  | Ok children => fold_left (child_body inv) children storagePods
  end.

Definition collectStoragePods (inv : Inventory) (folders : list object_Folder)
  : list mo_StoragePod :=
  fold_left (folder_body inv) folders [].

(** Lines 199 and 214 to 216: the datastores of the cluster by reference value. *)
Definition build_datastoreMap (datastores : list mo_Datastore) : gmap string mo_Datastore :=
  fold_left (fun m ds => <[Value (ds_Self ds) := ds]> m) datastores ∅.

Definition datastoreInfo (ds : mo_Datastore) : DatastoreInfo :=
  {| di_Name := ds_Name ds;
     di_Capacity := toGB (Capacity (ds_Summary ds));
     di_FreeSpace := toGB (FreeSpace (ds_Summary ds)) |}.

(** The line of lines 251 and 302. *)
Definition datastoreLine (ds : mo_Datastore) : string :=
  "    - " +:+ ds_Name ds +:+ " (Capacity: " +:+ fmt_2f (toGB (Capacity (ds_Summary ds)))
  +:+ " GB, Free: " +:+ fmt_2f (toGB (FreeSpace (ds_Summary ds))) +:+ " GB)" +:+ LF.

(** Lines 236 to 255: one member of a storage pod.  The state is
    [podHasDatastoresInCluster] and [dsClusterInfo.Datastores]. *)
Definition childRef_body (cfg : Config) (datastoreMap : gmap string mo_Datastore)
    (st : bool * list DatastoreInfo) (childRef : ManagedObjectReference)
  : Out (bool * list DatastoreInfo) :=
  let '(podHasDatastoresInCluster, dsl) := st in
  match datastoreMap !! Value childRef with
  | Some ds =>
      if OutputJSON cfg then ret (true, dsl ++ [datastoreInfo ds])
      else let* _ := Printf (datastoreLine ds) in ret (true, dsl)
  | None => ret st
  end.

(** Lines 224 to 266: one storage pod. *)
Definition pod_body (cfg : Config) (datastoreMap : gmap string mo_Datastore)
    (clusterInfo : ClusterInfo) (pod : mo_StoragePod) : Out ClusterInfo :=
  let* _ := when (negb (OutputJSON cfg))
              (Printf ("  Datastore Cluster: " +:+ pod_Name pod +:+ LF)) in
  let* (podHasDatastoresInCluster, dsl) :=
    range (pod_ChildEntity pod) (childRef_body cfg datastoreMap) (false, []) in
  let* _ := when (negb podHasDatastoresInCluster)
              (when (negb (OutputJSON cfg))
                 (Println "    No datastores from this cluster in this datastore cluster")) in
  ret (if OutputJSON cfg && (0 <? length dsl)%nat
       then {| ci_Name := ci_Name clusterInfo;
               ci_DatastoreClusters :=
                 ci_DatastoreClusters clusterInfo
                 ++ [{| dci_Name := pod_Name pod; dci_Datastores := dsl |}];
               ci_StandaloneDatastores := ci_StandaloneDatastores clusterInfo |}
       else clusterInfo).

(** Lines 279 to 284: the scan of one member list, left at the first match. *)
Fixpoint childEntity_has (children : list ManagedObjectReference) (value : string) : bool :=
  match children with
  | [] => false
  | childRef :: rest =>
      if String.eqb (Value childRef) value then true else childEntity_has rest value
  end.

(** Lines 277 to 288: [belongsToStoragePod]. *)
Fixpoint belongsToStoragePod (storagePods : list mo_StoragePod) (value : string) : bool :=
  match storagePods with
  | [] => false
  | pod :: rest =>
      if childEntity_has (pod_ChildEntity pod) value then true
      else belongsToStoragePod rest value
  end.

(** Lines 275 to 306: one datastore of the cluster.  The state is
    [clusterInfo] and [standaloneDsFound]. *)
Definition standalone_body (cfg : Config) (storagePods : list mo_StoragePod)
    (st : ClusterInfo * bool) (ds : mo_Datastore) : Out (ClusterInfo * bool) :=
  let '(clusterInfo, standaloneDsFound) := st in
  if belongsToStoragePod storagePods (Value (ds_Self ds)) then ret st
  else
    if OutputJSON cfg then
      ret ({| ci_Name := ci_Name clusterInfo;
              ci_DatastoreClusters := ci_DatastoreClusters clusterInfo;
              ci_StandaloneDatastores :=
                ci_StandaloneDatastores clusterInfo ++ [datastoreInfo ds] |}, true)
    else let* _ := Printf (datastoreLine ds) in ret (clusterInfo, true).

(** Lines 198 to 310: the report of a cluster whose storage pods and
    datastores were read. *)
Definition reportCluster (cfg : Config) (storagePods : list mo_StoragePod)
    (datastores : list mo_Datastore) (clusterInfo : ClusterInfo) : Out ClusterInfo :=
  let datastoreMap := build_datastoreMap datastores in
  let* clusterInfo :=
    if (length storagePods =? 0)%nat then
      let* _ := when (negb (OutputJSON cfg))
                  (Println "  No datastore clusters found for this cluster") in
      ret clusterInfo
    else range storagePods (pod_body cfg datastoreMap) clusterInfo in
  let* _ := when (negb (OutputJSON cfg)) (Println "  Standalone Datastores:") in
  let* (clusterInfo, standaloneDsFound) :=
    range datastores (standalone_body cfg storagePods) (clusterInfo, false) in
  let* _ := when (negb standaloneDsFound && negb (OutputJSON cfg))
              (Println "    No standalone datastores found") in
  ret clusterInfo.

(** The zero value of [ClusterInfo], and the one of lines 136 to 138. *)
Definition ClusterInfo_zero : ClusterInfo :=
  {| ci_Name := EmptyString; ci_DatastoreClusters := []; ci_StandaloneDatastores := [] |}.

Definition ClusterInfo_init (cfg : Config) (cluster : object_ClusterComputeResource)
  : ClusterInfo :=
  if OutputJSON cfg then
    {| ci_Name := cluster_Name cluster;
       ci_DatastoreClusters := []; ci_StandaloneDatastores := [] |}
  else ClusterInfo_zero.

(** Lines 133 to 315: the body of the loop over the clusters.  A [continue]
    leaves [infraInfo] as it was. *)
Definition cluster_body (cfg : Config) (inv : Inventory) (dc : object_Datacenter)
    (infraInfo : InfrastructureInfo) (cluster : object_ClusterComputeResource)
  : Out InfrastructureInfo :=
  let clusterInfo := ClusterInfo_init cfg cluster in
  let* _ := when (negb (OutputJSON cfg))
              (let* _ := Printf (LF +:+ "Cluster: " +:+ cluster_Name cluster +:+ LF) in
               Println (strings_Repeat "-" (String.length (cluster_Name cluster) + 9))) in
  match datastoreFolders inv dc with
  | Err err =>
      let* _ := when (negb (OutputJSON cfg))
                  (Printf ("  Error finding datastore folders: " +:+ err +:+ LF)) in
      ret infraInfo
  | Ok folders =>
      let storagePods := collectStoragePods inv folders in
      match pc_RetrieveOne_Cluster inv (cluster_Reference cluster) with
      | Err err =>
          let* _ := when (negb (OutputJSON cfg))
                      (Printf ("  Error getting cluster details: " +:+ err +:+ LF)) in
          ret infraInfo
      | Ok clusterMo =>
          let dsList := ccr_Datastore clusterMo in
          match pc_Retrieve_Datastores inv dsList with
          | Err err =>
              let* _ := when (negb (OutputJSON cfg))
                          (Printf ("  Error retrieving datastore details: " +:+ err +:+ LF)) in
              ret infraInfo
          | Ok datastores =>
              let* clusterInfo := reportCluster cfg storagePods datastores clusterInfo in
              ret (if OutputJSON cfg
                   then {| ii_Datacenter := ii_Datacenter infraInfo;
                           ii_Clusters := ii_Clusters infraInfo ++ [clusterInfo] |}
                   else infraInfo)
          end
      end
  end.

(** ** json.MarshalIndent(infraInfo, "", "  ") (line 319)

    The encoder of package encoding/json refuses a float that is infinite or
    not a number, and nothing else in these types.  How it writes a string
    (quoting and escaping) and a finite float (the shortest decimal that reads
    back as the same float) is left to the two variables. *)
Section Program.

Variable json_encodeString : string -> string.
Variable json_encodeFloat : float64 -> string.

Fixpoint strings_Join (elems : list string) (sep : string) : string :=
  match elems with
  | [] => EmptyString
  | [e] => e
  | e :: rest => e +:+ sep +:+ strings_Join rest sep
  end.

Definition json_indent (depth : nat) : string := strings_Repeat "  " depth.

(** An object at [depth]: one member per line, one level deeper. *)
Definition json_object (depth : nat) (members : list (string * string)) : string :=
  "{" +:+ LF
  +:+ strings_Join
        (map (fun kv => json_indent (S depth) +:+ DQ +:+ fst kv +:+ DQ +:+ ": " +:+ snd kv)
             members)
        ("," +:+ LF)
  +:+ LF +:+ json_indent depth +:+ "}".

(** An array at [depth] of elements already written one level deeper. *)
Definition json_array (depth : nat) (elems : list string) : string :=
  match elems with
  | [] => "[]"
  | _ =>
      "[" +:+ LF
      +:+ strings_Join (map (fun e => json_indent (S depth) +:+ e) elems) ("," +:+ LF)
      +:+ LF +:+ json_indent depth +:+ "]"
  end.

Definition json_DatastoreInfo (depth : nat) (d : DatastoreInfo) : string :=
  json_object depth
    [("name", json_encodeString (di_Name d));
     ("capacity_gb", json_encodeFloat (di_Capacity d));
     ("free_space_gb", json_encodeFloat (di_FreeSpace d))].

Definition json_DatastoreClusterInfo (depth : nat) (c : DatastoreClusterInfo) : string :=
  json_object depth
    [("name", json_encodeString (dci_Name c));
     ("datastores",
      json_array (S depth) (map (json_DatastoreInfo (S (S depth))) (dci_Datastores c)))].

Definition json_ClusterInfo (depth : nat) (c : ClusterInfo) : string :=
  json_object depth
    [("name", json_encodeString (ci_Name c));
     ("datastore_clusters",
      json_array (S depth)
        (map (json_DatastoreClusterInfo (S (S depth))) (ci_DatastoreClusters c)));
     ("standalone_datastores",
      json_array (S depth)
        (map (json_DatastoreInfo (S (S depth))) (ci_StandaloneDatastores c)))].

Definition json_InfrastructureInfo (v : InfrastructureInfo) : string :=
  json_object 0
    [("datacenter", json_encodeString (ii_Datacenter v));
     ("clusters", json_array 1 (map (json_ClusterInfo 2) (ii_Clusters v)))].

(** The floats of a document, in the order the encoder meets them. *)
Definition floats_DatastoreInfo (d : DatastoreInfo) : list float64 :=
  [di_Capacity d; di_FreeSpace d].

Definition floats_ClusterInfo (c : ClusterInfo) : list float64 :=
  concat (map (fun g => concat (map floats_DatastoreInfo (dci_Datastores g)))
              (ci_DatastoreClusters c))
  ++ concat (map floats_DatastoreInfo (ci_StandaloneDatastores c)).

Definition floats_InfrastructureInfo (v : InfrastructureInfo) : list float64 :=
  concat (map floats_ClusterInfo (ii_Clusters v)).

Definition json_MarshalIndent (v : InfrastructureInfo) : Result string :=
  match List.find float64_IsInfOrNaN (floats_InfrastructureInfo v) with
  | Some f => Err ("json: unsupported value: " +:+ fmt_2f f)
  | None => Ok (json_InfrastructureInfo v)
  end.

(** ** main (lines 59 to 326) *)

(** Lines 126 to 130. *)
Definition InfrastructureInfo_init (cfg : Config) (dc : object_Datacenter)
  : InfrastructureInfo :=
  if OutputJSON cfg then {| ii_Datacenter := dc_Name dc; ii_Clusters := [] |}
  else {| ii_Datacenter := EmptyString; ii_Clusters := [] |}.

(** Lines 77 to 83. *)
Definition resolveDatacenter (inv : Inventory) (cfg : Config) : Result object_Datacenter :=
  if negb (String.eqb (Datacenter cfg) EmptyString)
  then finder_Datacenter inv (Datacenter cfg)
  else finder_DefaultDatacenter inv.

(** Lines 86 to 103: no datacenter; the list of all of them, and exit 1. *)
Definition listDatacentersAndExit (inv : Inventory) : Outcome :=
  match finder_DatacenterList inv "*" with
  | Err err => os_Exit ("Error: " +:+ err +:+ LF) 1
  | Ok dcs =>
      if (length dcs =? 0)%nat then
        os_Exit ("No datacenters found. Please check your vSphere environment." +:+ LF) 1
      else
        os_Exit
          (fst (let* _ := Println "Available datacenters:" in
                let* _ := range dcs (fun _ dc => Printf ("- " +:+ dc_Name dc +:+ LF)) tt in
                Println (LF +:+ "Please specify a datacenter using the -datacenter flag.")))
          1
  end.

(** Lines 109 to 325: the run once the datacenter is known. *)
Definition reportDatacenter (inv : Inventory) (cfg : Config) (dc : object_Datacenter)
  : Outcome :=
  let banner := fst (when (negb (OutputJSON cfg))
                       (Printf ("Using datacenter: " +:+ dc_Name dc +:+ LF))) in
  match finder_ClusterComputeResourceList inv dc "*" with
  | Err err => os_Exit (banner +:+ "Error getting clusters: " +:+ err +:+ LF) 1
  | Ok clusters =>
      if (length clusters =? 0)%nat then
        os_Exit (banner +:+ "No clusters found in the selected datacenter." +:+ LF) 0
      else
        let '(text, infraInfo) :=
          range clusters (cluster_body cfg inv dc) (InfrastructureInfo_init cfg dc) in
        if OutputJSON cfg then
          match json_MarshalIndent infraInfo with
          | Err err =>
              os_Exit (banner +:+ text +:+ "Error generating JSON output: " +:+ err +:+ LF) 1
          | Ok jsonOutput => os_Exit (banner +:+ text +:+ jsonOutput +:+ LF) 0
          end
        else os_Exit (banner +:+ text) 0
  end.

Definition main (parsed : Config) (inv : Inventory) : Outcome :=
  match parseFlags parsed with
  | inl exited => exited
  | inr cfg =>
      match connectToVSphere inv cfg with
      | Err err => os_Exit ("Error connecting to vSphere: " +:+ err +:+ LF) 1
      | Ok _ =>
          match resolveDatacenter inv cfg with
          | Err _ => listDatacentersAndExit inv
          | Ok dc => reportDatacenter inv cfg dc
          end
      end
  end.

End Program.

(** * Specification *)

(** ** What a cluster report lists *)

(** The text of strings written one after the other. *)
Definition strings_concat (l : list string) : string := foldr String.append EmptyString l.

Definition refValue (ds : mo_Datastore) : string := Value (ds_Self ds).

(** The datastores of the cluster that a storage pod lists as members, one for
    each member reference in the map, in the order of the member list. *)
Definition pod_members (datastoreMap : gmap string mo_Datastore) (pod : mo_StoragePod)
  : list mo_Datastore :=
  omap (fun childRef => datastoreMap !! Value childRef) (pod_ChildEntity pod).

(** The datastores of the cluster that no storage pod lists. *)
Definition standalone_datastores (storagePods : list mo_StoragePod)
    (datastores : list mo_Datastore) : list mo_Datastore :=
  List.filter (fun ds => negb (belongsToStoragePod storagePods (refValue ds))) datastores.

(** The datastores listed under the storage pods, pod after pod. *)
Definition grouped_datastores (storagePods : list mo_StoragePod)
    (datastores : list mo_Datastore) : list mo_Datastore :=
  concat (map (pod_members (build_datastoreMap datastores)) storagePods).

(** The entry of a storage pod in the structured report: none without members. *)
Definition pod_entry (datastoreMap : gmap string mo_Datastore) (pod : mo_StoragePod)
  : option DatastoreClusterInfo :=
  match pod_members datastoreMap pod with
  | [] => None
  | members =>
      Some {| dci_Name := pod_Name pod; dci_Datastores := map datastoreInfo members |}
  end.

(** The text of a storage pod in the text report. *)
Definition pod_text (datastoreMap : gmap string mo_Datastore) (pod : mo_StoragePod) : string :=
  "  Datastore Cluster: " +:+ pod_Name pod +:+ LF
  +:+ match pod_members datastoreMap pod with
      | [] => "    No datastores from this cluster in this datastore cluster" +:+ LF
      | members => strings_concat (map datastoreLine members)
      end.

Definition pods_text (datastoreMap : gmap string mo_Datastore)
    (storagePods : list mo_StoragePod) : string :=
  match storagePods with
  | [] => "  No datastore clusters found for this cluster" +:+ LF
  | _ => strings_concat (map (pod_text datastoreMap) storagePods)
  end.

Definition standalone_text (standalone : list mo_Datastore) : string :=
  "  Standalone Datastores:" +:+ LF
  +:+ match standalone with
      | [] => "    No standalone datastores found" +:+ LF
      | _ => strings_concat (map datastoreLine standalone)
      end.

(** The structured report of a cluster: the entries of the storage pods with
    members, then the standalone datastores. *)
Definition cluster_report (storagePods : list mo_StoragePod) (datastores : list mo_Datastore)
    (clusterInfo : ClusterInfo) : ClusterInfo :=
  {| ci_Name := ci_Name clusterInfo;
     ci_DatastoreClusters :=
       ci_DatastoreClusters clusterInfo
       ++ omap (pod_entry (build_datastoreMap datastores)) storagePods;
     ci_StandaloneDatastores :=
       ci_StandaloneDatastores clusterInfo
       ++ map datastoreInfo (standalone_datastores storagePods datastores) |}.

(** The text report of a cluster, below its heading. *)
Definition cluster_text (storagePods : list mo_StoragePod) (datastores : list mo_Datastore)
  : string :=
  pods_text (build_datastoreMap datastores) storagePods
  +:+ standalone_text (standalone_datastores storagePods datastores).

(** A cluster report with more entries, or more standalone datastores. *)
Definition add_entries (clusterInfo : ClusterInfo) (entries : list DatastoreClusterInfo)
  : ClusterInfo :=
  {| ci_Name := ci_Name clusterInfo;
     ci_DatastoreClusters := ci_DatastoreClusters clusterInfo ++ entries;
     ci_StandaloneDatastores := ci_StandaloneDatastores clusterInfo |}.

Definition add_standalone (clusterInfo : ClusterInfo) (infos : list DatastoreInfo)
  : ClusterInfo :=
  {| ci_Name := ci_Name clusterInfo;
     ci_DatastoreClusters := ci_DatastoreClusters clusterInfo;
     ci_StandaloneDatastores := ci_StandaloneDatastores clusterInfo ++ infos |}.

Definition add_clusters (infraInfo : InfrastructureInfo) (entries : list ClusterInfo)
  : InfrastructureInfo :=
  {| ii_Datacenter := ii_Datacenter infraInfo;
     ii_Clusters := ii_Clusters infraInfo ++ entries |}.

(** ** What the loop over the clusters reads and reports *)

(** The heading of a cluster in the text report (lines 140 and 141). *)
Definition cluster_heading (cluster : object_ClusterComputeResource) : string :=
  LF +:+ "Cluster: " +:+ cluster_Name cluster +:+ LF
  +:+ strings_Repeat "-" (String.length (cluster_Name cluster) + 9) +:+ LF.

(** What the loop body reads for a cluster before it reports: the storage pods
    and the datastores, or the line of the first failure among folder
    discovery, cluster details and datastore details. *)
Definition readCluster (inv : Inventory) (dc : object_Datacenter)
    (cluster : object_ClusterComputeResource)
  : Result (list mo_StoragePod * list mo_Datastore) :=
  match datastoreFolders inv dc with
  | Err err => Err ("  Error finding datastore folders: " +:+ err +:+ LF)
  | Ok folders =>
      match pc_RetrieveOne_Cluster inv (cluster_Reference cluster) with
      | Err err => Err ("  Error getting cluster details: " +:+ err +:+ LF)
      | Ok clusterMo =>
          match pc_Retrieve_Datastores inv (ccr_Datastore clusterMo) with
          | Err err => Err ("  Error retrieving datastore details: " +:+ err +:+ LF)
          | Ok datastores => Ok (collectStoragePods inv folders, datastores)
          end
      end
  end.

(** A cluster is degraded when folder discovery fails, or the details of the
    cluster cannot be read, or the details of its datastores cannot. *)
Definition degraded (inv : Inventory) (dc : object_Datacenter)
    (cluster : object_ClusterComputeResource) : Prop :=
  (exists err, datastoreFolders inv dc = Err err)
  \/ (exists err, pc_RetrieveOne_Cluster inv (cluster_Reference cluster) = Err err)
  \/ (exists clusterMo err,
        pc_RetrieveOne_Cluster inv (cluster_Reference cluster) = Ok clusterMo
        /\ pc_Retrieve_Datastores inv (ccr_Datastore clusterMo) = Err err).

(** The entry of a cluster in the structured report: none for a cluster whose
    reading failed. *)
Definition cluster_entry (cfg : Config) (inv : Inventory) (dc : object_Datacenter)
    (cluster : object_ClusterComputeResource) : option ClusterInfo :=
  match readCluster inv dc cluster with
  | Err _ => None
  | Ok (storagePods, datastores) =>
      Some (cluster_report storagePods datastores (ClusterInfo_init cfg cluster))
  end.

(** The section of a cluster in the text report. *)
Definition cluster_section (inv : Inventory) (dc : object_Datacenter)
    (cluster : object_ClusterComputeResource) : string :=
  cluster_heading cluster
  +:+ match readCluster inv dc cluster with
      | Err line => line
      | Ok (storagePods, datastores) => cluster_text storagePods datastores
      end.

(** The credentials that [parseFlags] asks for are all there. *)
Definition credentials_given (cfg : Config) : Prop :=
  URL cfg <> EmptyString /\ Username cfg <> EmptyString /\ Password cfg <> EmptyString.

(** ** Counting the listings of a reference value *)

(** How many times the reference value [v] occurs in a list of them. *)
Definition occurrences (v : string) (l : list string) : nat :=
  length (List.filter (String.eqb v) l).

(** How many times the report of a cluster lists the reference value [v]:
    under the storage pods and as standalone. *)
Definition times_listed (storagePods : list mo_StoragePod) (datastores : list mo_Datastore)
    (v : string) : nat :=
  occurrences v (map refValue (grouped_datastores storagePods datastores))
  + occurrences v (map refValue (standalone_datastores storagePods datastores)).

(** How many times the member lists of the storage pods name [v]. *)
Definition member_occurrences (storagePods : list mo_StoragePod) (v : string) : nat :=
  occurrences v (map Value (concat (map pod_ChildEntity storagePods))).

(** ** The lookups of the datastore folders *)




(** ** What the finder of govmomi answers

    A listing of the finder that matches nothing answers with an error, its
    [NotFoundError] (written "cluster '*' not found" for the clusters), and
    never with an empty list and no error. *)
Definition finder_contract (inv : Inventory) : Prop :=
  (forall dc path, finder_ClusterComputeResourceList inv dc path <> Ok [])
  /\ (forall dc path, finder_FolderList inv dc path <> Ok []).

(** ** Floats *)

(** A float that is a zero, or finite with exponent at most [B] and at most
    [B + 53] binary digits before the point. *)
Definition SF_bounded (B : Z) (x : float64) : Prop :=
  match x with
  | S754_zero _ => True
  | S754_finite _ m e => e <= B /\ Zdigits2 (Zpos m) + e <= B + 53
  | _ => False
  end.

(** The float 1: mantissa [2 ^ 52] at exponent [-52]. *)
Definition float64_one : float64 := S754_finite false 4503599627370496 (-52).

(** 1,073,741,824 bytes and 1,000,000,000 bytes. *)
Definition one_GiB : int64 := Int64 1073741824 eq_refl.
Definition one_GB_decimal : int64 := Int64 1000000000 eq_refl.

(** ** An inventory to run the program on

    One datacenter DC01 with the clusters Cluster01 and Cluster02.  Only the
    lookup of "*/datastore" finds the datastore folder; it holds the storage
    pods StoragePod01 (datastores A and B, and one of another cluster),
    StoragePod02 (C), StoragePod03 (none of Cluster01) and one pod whose
    properties cannot be read.  Cluster01 reaches A, B, C and D; the details
    of Cluster02 cannot be read. *)
Module Example.

Definition GB (n : Z) : Z := n * 1073741824.

Definition ref (kind value : string) : ManagedObjectReference :=
  {| Type_ := kind; Value := value |}.

Definition datastore (value name : string) (capacity free : int64) : mo_Datastore :=
  {| ds_Self := ref "Datastore" value; ds_Name := name;
     ds_Summary := {| Capacity := capacity; FreeSpace := free |} |}.

Definition dsA := datastore "datastore-1" "A" (Int64 (GB 2048) eq_refl) (Int64 (GB 1024) eq_refl).
Definition dsB := datastore "datastore-2" "B" (Int64 (GB 4096) eq_refl) (Int64 (GB 2048) eq_refl).
Definition dsC := datastore "datastore-3" "C" (Int64 (GB 1024) eq_refl) (Int64 (GB 512) eq_refl).
Definition dsD := datastore "datastore-4" "D" (Int64 (GB 8192) eq_refl) (Int64 (GB 4096) eq_refl).

Definition pod1 : mo_StoragePod :=
  {| pod_Name := "StoragePod01";
     pod_ChildEntity := [ref "Datastore" "datastore-1"; ref "Datastore" "datastore-2";
                         ref "Datastore" "datastore-9"] |}.
Definition pod2 : mo_StoragePod :=
  {| pod_Name := "StoragePod02"; pod_ChildEntity := [ref "Datastore" "datastore-3"] |}.
Definition pod3 : mo_StoragePod :=
  {| pod_Name := "StoragePod03"; pod_ChildEntity := [ref "Datastore" "datastore-8"] |}.

(** A pod that names datastore A as [pod1] does. *)
Definition pod_shared : mo_StoragePod :=
  {| pod_Name := "StoragePod04"; pod_ChildEntity := [ref "Datastore" "datastore-1"] |}.

Definition dc01 : object_Datacenter := {| dc_Name := "DC01"; dc_InventoryPath := "/DC01" |}.

Definition cluster01 : object_ClusterComputeResource :=
  {| cluster_Name := "Cluster01"; cluster_Reference := ref "ClusterComputeResource" "domain-c1" |}.
Definition cluster02 : object_ClusterComputeResource :=
  {| cluster_Name := "Cluster02"; cluster_Reference := ref "ClusterComputeResource" "domain-c2" |}.

Definition folder1 : object_Folder := {| folder_Reference := ref "Folder" "group-s1" |}.

Definition inventory : Inventory :=
  {| soap_ParseURL := fun _ => Ok tt;
     vim25_NewClient := fun _ _ => Ok tt;
     sm_Login := fun _ _ => Ok tt;
     finder_Datacenter := fun name =>
       if String.eqb name "DC01" then Ok dc01 else Err "datacenter not found";
     finder_DefaultDatacenter := Ok dc01;
     finder_DatacenterList := fun _ => Ok [dc01];
     finder_ClusterComputeResourceList := fun _ _ => Ok [cluster01; cluster02];
     finder_FolderList := fun _ path =>
       if String.eqb path "*/datastore" then Ok [folder1] else Err "folder not found";
     folder_Children := fun _ =>
       Ok [StoragePodRef (ref "StoragePod" "group-p1"); OtherRef (ref "Datastore" "datastore-4");
           StoragePodRef (ref "StoragePod" "group-p2"); StoragePodRef (ref "StoragePod" "group-p3");
           StoragePodRef (ref "StoragePod" "group-p4")];
     pc_RetrieveOne_StoragePod := fun pod =>
       if String.eqb (Value pod) "group-p1" then Ok pod1
       else if String.eqb (Value pod) "group-p2" then Ok pod2
       else if String.eqb (Value pod) "group-p3" then Ok pod3
       else Err "object has been deleted";
     pc_RetrieveOne_Cluster := fun cluster =>
       if String.eqb (Value cluster) "domain-c1"
       then Ok {| ccr_Datastore := [ref "Datastore" "datastore-1"; ref "Datastore" "datastore-2";
                                    ref "Datastore" "datastore-3"; ref "Datastore" "datastore-4"] |}
       else Err "permission denied";
     pc_Retrieve_Datastores := fun _ => Ok [dsA; dsB; dsC; dsD] |}.

Definition config (json : bool) : Config :=
  {| URL := "https://vcenter.example.com/sdk"; Username := "admin"; Password := "secret";
     Insecure := true; Datacenter := "DC01"; OutputJSON := json |}.

(** Encoders to run [main] with: a string between quotes, a float as [%.2f]
    writes it. *)
Definition encodeString (s : string) : string := DQ +:+ s +:+ DQ.
Definition encodeFloat (f : float64) : string := fmt_2f f.

End Example.

(** ** Variants of the example inventory *)
Module Variant.

(** The server refuses the connection. *)
Definition unreachable : Inventory :=
  {| soap_ParseURL := soap_ParseURL Example.inventory;
     vim25_NewClient := fun _ _ => Err "dial tcp: connection refused";
     sm_Login := sm_Login Example.inventory;
     finder_Datacenter := finder_Datacenter Example.inventory;
     finder_DefaultDatacenter := finder_DefaultDatacenter Example.inventory;
     finder_DatacenterList := finder_DatacenterList Example.inventory;
     finder_ClusterComputeResourceList := finder_ClusterComputeResourceList Example.inventory;
     finder_FolderList := finder_FolderList Example.inventory;
     folder_Children := folder_Children Example.inventory;
     pc_RetrieveOne_StoragePod := pc_RetrieveOne_StoragePod Example.inventory;
     pc_RetrieveOne_Cluster := pc_RetrieveOne_Cluster Example.inventory;
     pc_Retrieve_Datastores := pc_Retrieve_Datastores Example.inventory |}.

(** The datacenter of the configuration does not exist. *)
Definition no_datacenter : Inventory :=
  {| soap_ParseURL := soap_ParseURL Example.inventory;
     vim25_NewClient := vim25_NewClient Example.inventory;
     sm_Login := sm_Login Example.inventory;
     finder_Datacenter := fun _ => Err "datacenter not found";
     finder_DefaultDatacenter := Err "default datacenter resolves to multiple instances";
     finder_DatacenterList := finder_DatacenterList Example.inventory;
     finder_ClusterComputeResourceList := finder_ClusterComputeResourceList Example.inventory;
     finder_FolderList := finder_FolderList Example.inventory;
     folder_Children := folder_Children Example.inventory;
     pc_RetrieveOne_StoragePod := pc_RetrieveOne_StoragePod Example.inventory;
     pc_RetrieveOne_Cluster := pc_RetrieveOne_Cluster Example.inventory;
     pc_Retrieve_Datastores := pc_Retrieve_Datastores Example.inventory |}.

(** The datacenter has no cluster: the finder answers the listing of the
    clusters with its [NotFoundError]. *)
Definition no_clusters : Inventory :=
  {| soap_ParseURL := soap_ParseURL Example.inventory;
     vim25_NewClient := vim25_NewClient Example.inventory;
     sm_Login := sm_Login Example.inventory;
     finder_Datacenter := finder_Datacenter Example.inventory;
     finder_DefaultDatacenter := finder_DefaultDatacenter Example.inventory;
     finder_DatacenterList := finder_DatacenterList Example.inventory;
     finder_ClusterComputeResourceList := fun _ _ => Err "cluster '*' not found";
     finder_FolderList := finder_FolderList Example.inventory;
     folder_Children := folder_Children Example.inventory;
     pc_RetrieveOne_StoragePod := pc_RetrieveOne_StoragePod Example.inventory;
     pc_RetrieveOne_Cluster := pc_RetrieveOne_Cluster Example.inventory;
     pc_Retrieve_Datastores := pc_Retrieve_Datastores Example.inventory |}.


(** A configuration without password. *)
Definition no_password : Config :=
  {| URL := "https://vcenter.example.com/sdk"; Username := "admin"; Password := EmptyString;
     Insecure := true; Datacenter := "DC01"; OutputJSON := false |}.

End Variant.

(** Lines of text, each ended by a newline. *)
Definition text_lines (lines : list string) : string :=
  strings_concat (map (fun line => line +:+ LF) lines).

(** ** Further notions for the properties of the whole program *)

(** The error of the first call that failed, in the order the calls are made. *)
Fixpoint first_error {A} (answers : list (Result A)) : option string :=
  match answers with
  | [] => None
  | Err err :: _ => Some err
  | Ok _ :: rest => first_error rest
  end.

(** The storage pods that the loop of lines 169 to 186 takes from one folder:
    none when its children cannot be read; of the children, the storage pods
    whose properties can be read. *)
Definition folder_pods (inv : Inventory) (dsFolder : object_Folder) : list mo_StoragePod :=
  match folder_Children inv dsFolder with
  | Err _ => []
  | Ok children =>
      omap (fun child =>
              match child with
              | StoragePodRef pod =>
                  match pc_RetrieveOne_StoragePod inv pod with
                  | Ok podInfo => Some podInfo
                  | Err _ => None
                  end
              | OtherRef _ => None
              end) children
  end.

(** Whether the storage pods and the datastores of a cluster can be read. *)
Definition readable (inv : Inventory) (dc : object_Datacenter)
    (cluster : object_ClusterComputeResource) : bool :=
  match readCluster inv dc cluster with
  | Ok _ => true
  | Err _ => false
  end.

(** The sign bit of a float; none for a NaN. *)
Definition float64_Signbit (x : float64) : bool :=
  match x with
  | S754_zero s | S754_infinity s | S754_finite s _ _ => s
  | S754_nan => false
  end.

(** Two storage pods with the same name whose member lists hold the same
    reference values in the same order, whatever the types of the references. *)
Definition same_pod_values (pod1 pod2 : mo_StoragePod) : Prop :=
  pod_Name pod1 = pod_Name pod2
  /\ map Value (pod_ChildEntity pod1) = map Value (pod_ChildEntity pod2).

(** More inventories and configurations to run the program on. *)
Module More.

(** The configuration asks for a datacenter that does not exist; the example
    inventory has a default datacenter. *)
Definition config_DC02 : Config :=
  {| URL := "https://vcenter.example.com/sdk"; Username := "admin"; Password := "secret";
     Insecure := true; Datacenter := "DC02"; OutputJSON := false |}.

(** No lookup of the datastore folders succeeds, each with its own error. *)
Definition no_folders : Inventory :=
  {| soap_ParseURL := soap_ParseURL Example.inventory;
     vim25_NewClient := vim25_NewClient Example.inventory;
     sm_Login := sm_Login Example.inventory;
     finder_Datacenter := finder_Datacenter Example.inventory;
     finder_DefaultDatacenter := finder_DefaultDatacenter Example.inventory;
     finder_DatacenterList := finder_DatacenterList Example.inventory;
     finder_ClusterComputeResourceList := finder_ClusterComputeResourceList Example.inventory;
     finder_FolderList := fun dc path =>
       if String.eqb path "*/datastores" then Err "first lookup failed"
       else if String.eqb path "*/datastore" then Err "second lookup failed"
       else Err "third lookup failed";
     folder_Children := folder_Children Example.inventory;
     pc_RetrieveOne_StoragePod := pc_RetrieveOne_StoragePod Example.inventory;
     pc_RetrieveOne_Cluster := pc_RetrieveOne_Cluster Example.inventory;
     pc_Retrieve_Datastores := pc_Retrieve_Datastores Example.inventory |}.

(** [Example.pod1] with members of another type. *)
Definition pod1_retyped : mo_StoragePod :=
  {| pod_Name := "StoragePod01";
     pod_ChildEntity := [Example.ref "Folder" "datastore-1"; Example.ref "Network" "datastore-2";
                         Example.ref "Datastore" "datastore-9"] |}.

(** The clusters of the datacenter cannot be listed. *)
Definition no_cluster_list : Inventory :=
  {| soap_ParseURL := soap_ParseURL Example.inventory;
     vim25_NewClient := vim25_NewClient Example.inventory;
     sm_Login := sm_Login Example.inventory;
     finder_Datacenter := finder_Datacenter Example.inventory;
     finder_DefaultDatacenter := finder_DefaultDatacenter Example.inventory;
     finder_DatacenterList := finder_DatacenterList Example.inventory;
     finder_ClusterComputeResourceList := fun _ _ => Err "permission denied";
     finder_FolderList := finder_FolderList Example.inventory;
     folder_Children := folder_Children Example.inventory;
     pc_RetrieveOne_StoragePod := pc_RetrieveOne_StoragePod Example.inventory;
     pc_RetrieveOne_Cluster := pc_RetrieveOne_Cluster Example.inventory;
     pc_Retrieve_Datastores := pc_Retrieve_Datastores Example.inventory |}.

End More.

(** * Properties *)

(** ** Strings and output *)

Lemma append_assoc (a b c : string) : (a +:+ b) +:+ c = a +:+ (b +:+ c).
Proof.
  induction a as [|x a IH]; [reflexivity|].
  change (String x ((a +:+ b) +:+ c) = String x (a +:+ (b +:+ c))). by rewrite IH.
Qed.

Lemma append_nil_r (a : string) : a +:+ EmptyString = a.
Proof.
  induction a as [|x a IH]; [reflexivity|].
  change (String x (a +:+ EmptyString) = String x a). by rewrite IH.
Qed.

Lemma append_nil_l (a : string) : EmptyString +:+ a = a.
Proof. reflexivity. Qed.


Lemma bind_ret_l {A B} (a : A) (k : A -> Out B) : bind (ret a) k = k a.
Proof. unfold bind, ret. by destruct (k a). Qed.

Lemma bind_eq {A B} (m : Out A) (k : A -> Out B) :
  bind m k = (fst m +:+ fst (k (snd m)), snd (k (snd m))).
Proof. unfold bind. destruct m as [o a]. cbn. by destruct (k a). Qed.

Lemma range_app {X S} (l1 l2 : list X) (body : S -> X -> Out S) (s : S) :
  range (l1 ++ l2) body s = bind (range l1 body s) (range l2 body).
Proof.
  revert s. induction l1 as [|x l1 IH]; intros s; cbn [range app].
  - by rewrite bind_ret_l.
  - rewrite !bind_eq. rewrite IH, bind_eq. cbn. by rewrite append_assoc.
Qed.

(** ** The loops of a cluster report *)

Lemma range_childRef_body cfg (m : gmap string mo_Datastore) children has dsl :
  range children (childRef_body cfg m) (has, dsl) =
  let members := omap (fun childRef => m !! Value childRef) children in
  (if OutputJSON cfg then EmptyString else strings_concat (map datastoreLine members),
   (match members with [] => has | _ => true end,
    if OutputJSON cfg then dsl ++ map datastoreInfo members else dsl)).
Proof.
  revert has dsl. induction children as [|c children IH]; intros has dsl.
  - cbn. destruct (OutputJSON cfg); by rewrite ?app_nil_r.
  - cbn [range omap list_omap]. unfold childRef_body at 1.
    destruct (m !! Value c) as [ds|] eqn:Hc.
    + destruct (OutputJSON cfg) eqn:HJ.
      * rewrite bind_ret_l, IH. cbn zeta. cbn [map].
        rewrite <- app_assoc. by destruct (omap _ children).
      * rewrite bind_eq. cbn [bind Printf ret fst snd]. rewrite IH. cbn zeta.
        cbn [fst snd map]. rewrite append_nil_r. by destruct (omap _ children).
    + rewrite bind_ret_l. apply IH.
Qed.

Lemma add_entries_nil ci : add_entries ci [] = ci.
Proof. destruct ci. unfold add_entries. cbn. by rewrite app_nil_r. Qed.

Lemma add_entries_app ci l1 l2 : add_entries (add_entries ci l1) l2 = add_entries ci (l1 ++ l2).
Proof. unfold add_entries. cbn. by rewrite app_assoc. Qed.

Lemma pod_body_eq cfg (m : gmap string mo_Datastore) ci pod :
  pod_body cfg m ci pod =
  if OutputJSON cfg then (EmptyString, add_entries ci (option_list (pod_entry m pod)))
  else (pod_text m pod, ci).
Proof.
  unfold pod_body. rewrite bind_eq. rewrite bind_eq. rewrite range_childRef_body. cbn zeta.
  unfold pod_entry, pod_text, pod_members.
  destruct (OutputJSON cfg) eqn:HJ; cbn [negb when ret fst snd andb Printf].
  - destruct (omap _ (pod_ChildEntity pod)) as [|ds members] eqn:Hm.
    + cbn. by rewrite add_entries_nil.
    + cbn. reflexivity.
  - destruct (omap _ (pod_ChildEntity pod)) as [|ds members] eqn:Hm.
    + cbn. by rewrite !append_assoc.
    + cbn. by rewrite !append_assoc, append_nil_r.
Qed.

Lemma range_pod_body cfg (m : gmap string mo_Datastore) pods ci :
  range pods (pod_body cfg m) ci =
  if OutputJSON cfg then (EmptyString, add_entries ci (omap (pod_entry m) pods))
  else (strings_concat (map (pod_text m) pods), ci).
Proof.
  revert ci. induction pods as [|pod pods IH]; intros ci.
  - cbn. rewrite add_entries_nil. by destruct (OutputJSON cfg).
  - cbn [range]. rewrite bind_eq, pod_body_eq, IH.
    destruct (OutputJSON cfg); cbn [fst snd map omap list_omap].
    + rewrite add_entries_app. by destruct (pod_entry m pod).
    + reflexivity.
Qed.

Lemma range_standalone_body cfg pods dss ci found :
  range dss (standalone_body cfg pods) (ci, found) =
  let standalone := standalone_datastores pods dss in
  (if OutputJSON cfg then EmptyString else strings_concat (map datastoreLine standalone),
   (if OutputJSON cfg then add_standalone ci (map datastoreInfo standalone) else ci,
    match standalone with [] => found | _ => true end)).
Proof.
  revert ci found. induction dss as [|ds dss IH]; intros ci found.
  - cbn. destruct (OutputJSON cfg); [|done].
    destruct ci; unfold add_standalone; cbn. by rewrite app_nil_r.
  - cbn [range]. unfold standalone_body at 1. unfold standalone_datastores.
    cbn [List.filter]. fold (standalone_datastores pods dss).
    change (refValue ds) with (Value (ds_Self ds)).
    destruct (belongsToStoragePod pods (Value (ds_Self ds))) eqn:Hb; cbn [negb].
    + rewrite bind_ret_l, IH. reflexivity.
    + cbn zeta. destruct (OutputJSON cfg) eqn:HJ.
      * rewrite bind_ret_l, IH. cbn zeta. cbn [map]. unfold add_standalone. cbn.
        rewrite <- app_assoc. by destruct (standalone_datastores pods dss).
      * rewrite bind_eq. cbn [bind Printf ret fst snd]. rewrite IH. cbn zeta.
        cbn [fst snd map]. rewrite append_nil_r.
        by destruct (standalone_datastores pods dss).
Qed.

Lemma reportCluster_eq cfg pods dss ci :
  reportCluster cfg pods dss ci =
  if OutputJSON cfg then (EmptyString, cluster_report pods dss ci)
  else (cluster_text pods dss, ci).
Proof.
  unfold reportCluster. cbn zeta.
  set (m := build_datastoreMap dss).
  assert (Hpods :
    (if (length pods =? 0)%nat
     then let* _ := when (negb (OutputJSON cfg))
                      (Println "  No datastore clusters found for this cluster") in ret ci
     else range pods (pod_body cfg m) ci)
    = if OutputJSON cfg then (EmptyString, add_entries ci (omap (pod_entry m) pods))
      else (pods_text m pods, ci)).
  { destruct pods as [|pod pods].
    - cbn. rewrite add_entries_nil. by destruct (OutputJSON cfg).
    - cbn [length Nat.eqb]. apply range_pod_body. }
  rewrite Hpods. clear Hpods.
  rewrite bind_eq. rewrite bind_eq. rewrite bind_eq. rewrite range_standalone_body. cbn zeta.
  unfold cluster_text, cluster_report, standalone_text. fold m.
  destruct (OutputJSON cfg) eqn:HJ; cbn [negb when ret fst snd andb Printf Println].
  - destruct (standalone_datastores pods dss); reflexivity.
  - destruct (standalone_datastores pods dss) as [|ds sa] eqn:Hsa;
      cbn [negb when ret fst snd andb Printf Println bind];
      by rewrite ?append_assoc, ?append_nil_r.
Qed.

(** ** The loop over the clusters *)

Lemma add_clusters_nil infra : add_clusters infra [] = infra.
Proof. destruct infra. unfold add_clusters. cbn. by rewrite app_nil_r. Qed.

Lemma add_clusters_app infra l1 l2 :
  add_clusters (add_clusters infra l1) l2 = add_clusters infra (l1 ++ l2).
Proof. unfold add_clusters. cbn. by rewrite app_assoc. Qed.

Lemma cluster_body_eq cfg inv dc infra cluster :
  cluster_body cfg inv dc infra cluster =
  if OutputJSON cfg
  then (EmptyString, add_clusters infra (option_list (cluster_entry cfg inv dc cluster)))
  else (cluster_section inv dc cluster, infra).
Proof.
  unfold cluster_body, cluster_entry, cluster_section, readCluster, cluster_heading.
  cbn zeta. rewrite bind_eq.
  destruct (datastoreFolders inv dc) as [folders|err].
  2:{ destruct (OutputJSON cfg); cbn; rewrite ?add_clusters_nil, ?append_nil_r;
        by rewrite ?append_assoc. }
  destruct (pc_RetrieveOne_Cluster inv (cluster_Reference cluster)) as [clusterMo|err].
  2:{ destruct (OutputJSON cfg); cbn; rewrite ?add_clusters_nil, ?append_nil_r;
        by rewrite ?append_assoc. }
  destruct (pc_Retrieve_Datastores inv (ccr_Datastore clusterMo)) as [datastores|err].
  2:{ destruct (OutputJSON cfg); cbn; rewrite ?add_clusters_nil, ?append_nil_r;
        by rewrite ?append_assoc. }
  rewrite bind_eq, reportCluster_eq.
  destruct (OutputJSON cfg) eqn:HJ; cbn [negb when ret fst snd bind Printf Println option_list].
  - reflexivity.
  - by rewrite ?append_assoc, ?append_nil_r.
Qed.

Lemma range_cluster_body cfg inv dc clusters infra :
  range clusters (cluster_body cfg inv dc) infra =
  if OutputJSON cfg
  then (EmptyString, add_clusters infra (omap (cluster_entry cfg inv dc) clusters))
  else (strings_concat (map (cluster_section inv dc) clusters), infra).
Proof.
  revert infra. induction clusters as [|c clusters IH]; intros infra.
  - cbn. rewrite add_clusters_nil. by destruct (OutputJSON cfg).
  - cbn [range]. rewrite bind_eq, cluster_body_eq, IH.
    destruct (OutputJSON cfg); cbn [fst snd map omap list_omap].
    + rewrite add_clusters_app. by destruct (cluster_entry cfg inv dc c).
    + reflexivity.
Qed.

(** ** Floats: a capacity in GB is never infinite and never NaN *)

Lemma Zdigits2_log2 (m : Z) : 0 < m -> Zdigits2 m = Z.log2 m + 1.
Proof.
  destruct m as [|p|p]; try lia. intros _. simpl.
  assert (H : forall q, Zpos (digits2_pos q) = Zpos (Pos.size q)).
  { induction q; simpl; try rewrite !Pos2Z.inj_succ; try rewrite IHq; reflexivity. }
  rewrite H. destruct p; simpl; lia.
Qed.

Lemma Zdigits2_nonneg (m : Z) : 0 <= Zdigits2 m.
Proof. destruct m; simpl; lia. Qed.

Lemma Zdigits2_mono (a b : Z) : 0 <= a <= b -> Zdigits2 a <= Zdigits2 b.
Proof.
  intros [Ha Hab]. destruct (Z.eq_dec a 0) as [->|Hne].
  - apply Zdigits2_nonneg.
  - rewrite !Zdigits2_log2 by lia. pose proof (Z.log2_le_mono a b Hab). lia.
Qed.

Lemma Zdigits2_shiftr (m n : Z) :
  0 <= m -> 0 <= n -> Zdigits2 (Z.shiftr m n) <= Z.max 0 (Zdigits2 m - n).
Proof.
  intros Hm Hn. pose proof (Z.shiftr_nonneg m n) as Hs.
  destruct (Z.eq_dec (Z.shiftr m n) 0) as [->|Hne]; [simpl; lia|].
  assert (0 < m). { destruct (Z.eq_dec m 0) as [->|]; [rewrite Z.shiftr_0_l in Hne|]; lia. }
  rewrite !Zdigits2_log2 by lia. rewrite Z.log2_shiftr by lia.
  assert (n <= Z.log2 m); [|lia].
  destruct (Z_le_gt_dec n (Z.log2 m)); [lia|].
  exfalso. apply Hne. apply Z.shiftr_eq_0; lia.
Qed.

Lemma Zdigits2_shiftl (m n : Z) :
  0 < m -> 0 <= n -> Zdigits2 (Z.shiftl m n) = Zdigits2 m + n.
Proof.
  intros Hm Hn. assert (0 < Z.shiftl m n).
  { rewrite Z.shiftl_mul_pow2 by lia. apply Z.mul_pos_pos; [lia|]. apply Z.pow_pos_nonneg; lia. }
  rewrite !Zdigits2_log2 by lia. rewrite Z.log2_shiftl by lia. lia.
Qed.

Lemma Zdigits2_succ (m : Z) : 0 <= m -> Zdigits2 (m + 1) <= Zdigits2 m + 1.
Proof.
  intros Hm. destruct (Z.eq_dec m 0) as [->|]; [simpl; lia|].
  rewrite !Zdigits2_log2 by lia.
  pose proof (Z.log2_succ_le m). replace (Z.succ m) with (m + 1) in * by lia. lia.
Qed.

(** Shifting a mantissa to the right. *)
Lemma shr_1_m (r : shr_record) : 0 <= shr_m r -> shr_m (shr_1 r) = Z.div2 (shr_m r).
Proof.
  destruct r as [m b s]. simpl.
  destruct m as [|[p|p|]|p]; simpl; intros; try reflexivity; lia.
Qed.

Lemma iter_pos_shr_1_m (n : positive) (r : shr_record) :
  0 <= shr_m r -> shr_m (SpecFloat.iter_pos shr_1 n r) = Z.shiftr (shr_m r) (Zpos n).
Proof.
  revert r. induction n as [n IH|n IH|]; intros r Hr; simpl SpecFloat.iter_pos.
  - assert (H1 : 0 <= shr_m (shr_1 r))
      by (rewrite shr_1_m by lia; apply Z.div2_nonneg; lia).
    assert (H2 : 0 <= shr_m (SpecFloat.iter_pos shr_1 n (shr_1 r)))
      by (rewrite IH by lia; apply Z.shiftr_nonneg; lia).
    rewrite IH, IH, shr_1_m by lia. rewrite Z.div2_spec, !Z.shiftr_shiftr by lia. f_equal. lia.
  - assert (H2 : 0 <= shr_m (SpecFloat.iter_pos shr_1 n r))
      by (rewrite IH by lia; apply Z.shiftr_nonneg; lia).
    rewrite IH, IH by lia. rewrite !Z.shiftr_shiftr by lia. f_equal. lia.
  - rewrite shr_1_m by lia. apply Z.div2_spec.
Qed.

Lemma shr_m_of_loc m l : shr_m (shr_record_of_loc m l) = m.
Proof. destruct l as [|[]]; reflexivity. Qed.

(** One [shr_fexp]: the exponent it reaches and the digits it leaves. *)
Lemma shr_fexp_bound (m e : Z) (l : location) :
  0 <= m ->
  let '(r, e') := shr_fexp 53 1024 m e l in
  0 <= shr_m r /\ e' = Z.max e (Z.max (Zdigits2 m + e - 53) (-1074))
  /\ Zdigits2 (shr_m r) + e' <= Z.max (Zdigits2 m + e) e'.
Proof.
  intros Hm. unfold shr_fexp, shr, fexp, emin.
  set (n := Z.max (Zdigits2 m + e - 53) (3 - 1024 - 53) - e).
  destruct n as [|p|p] eqn:Hn.
  - rewrite shr_m_of_loc. lia.
  - rewrite iter_pos_shr_1_m by (rewrite shr_m_of_loc; lia). rewrite shr_m_of_loc.
    pose proof (Zdigits2_shiftr m (Zpos p) Hm ltac:(lia)).
    pose proof (Z.shiftr_nonneg m (Zpos p)). lia.
  - rewrite shr_m_of_loc. lia.
Qed.

Lemma round_nearest_even_bound (m : Z) (l : location) :
  0 <= m -> 0 <= round_nearest_even m l /\ Zdigits2 (round_nearest_even m l) <= Zdigits2 m + 1.
Proof.
  intros Hm. pose proof (Zdigits2_succ m Hm).
  unfold round_nearest_even. destruct l as [|[]]; try destruct (Z.even m); lia.
Qed.

Lemma binary_round_aux_bounded (s : bool) (m e : Z) (l : location) (B : Z) :
  0 <= m -> -1074 <= B <= 971 -> e <= B -> Zdigits2 m + e <= B + 52 ->
  SF_bounded B (binary_round_aux 53 1024 s m e l).
Proof.
  intros Hm HB He Hd. unfold binary_round_aux.
  pose proof (shr_fexp_bound m e l Hm) as H1.
  destruct (shr_fexp 53 1024 m e l) as [r1 e1]. destruct H1 as (H1m & H1e & H1d).
  pose proof (round_nearest_even_bound (shr_m r1) (loc_of_shr_record r1) H1m) as [H2m H2d].
  pose proof (shr_fexp_bound (round_nearest_even (shr_m r1) (loc_of_shr_record r1)) e1 loc_Exact
                H2m) as H3.
  destruct (shr_fexp 53 1024 _ e1 loc_Exact) as [r2 e2]. destruct H3 as (H3m & H3e & H3d).
  destruct (shr_m r2) as [|p|p] eqn:Hr2; [exact I| |lia].
  destruct (Z.leb_spec e2 (1024 - 53)); [|lia].
  unfold SF_bounded. lia.
Qed.

Lemma digits2_pos_iter_xO (p d : positive) :
  Zpos (digits2_pos (Pos.iter xO p d)) = Zpos (digits2_pos p) + Zpos d.
Proof.
  induction d as [|d IH] using Pos.peano_ind.
  - simpl. lia.
  - rewrite Pos.iter_succ. simpl. lia.
Qed.

Lemma float64_of_Z_bounded (z : Z) :
  - 2 ^ 63 <= z < 2 ^ 63 -> SF_bounded 12 (float64_of_Z z).
Proof.
  intros Hz. unfold float64_of_Z, binary_normalize, prec64, emax64.
  assert (Hdig : forall p, Zpos p <= 2 ^ 63 -> Zpos (digits2_pos p) <= 64).
  { intros p Hp. change (Zpos (digits2_pos p)) with (Zdigits2 (Zpos p)).
    change 64 with (Zdigits2 (2 ^ 63)). apply Zdigits2_mono. lia. }
  assert (Hround : forall s p, Zpos p <= 2 ^ 63 -> SF_bounded 12 (binary_round 53 1024 s p 0)).
  { intros s p Hp. specialize (Hdig p Hp). unfold binary_round, shl_align, fexp, emin.
    destruct (Z.max (Zpos (digits2_pos p) + 0 - 53) (3 - 1024 - 53) - 0) as [|d|d] eqn:Hd.
    - apply binary_round_aux_bounded; simpl; lia.
    - apply binary_round_aux_bounded; simpl; lia.
    - apply binary_round_aux_bounded; try lia.
      simpl Zdigits2. rewrite digits2_pos_iter_xO. lia. }
  destruct z as [|p|p]; simpl; auto; apply Hround; lia.
Qed.

Lemma float64_div_GB_bounded (x : spec_float) :
  SF_bounded 12 x -> SF_bounded 35 (float64_div x (float64_of_Z bytesPerGB)).
Proof.
  intros Hx.
  change (float64_of_Z bytesPerGB) with (S754_finite false 4503599627370496 (-22)).
  destruct x as [s|s| |s m e]; unfold SF_bounded in Hx; try contradiction; [exact I|].
  unfold float64_div, SFdiv, SFdiv_core_binary, fexp, emin, prec64, emax64.
  change IntDef.Z.min with Z.min. change IntDef.Z.max with Z.max.
  change IntDef.Z.div_eucl with Z.div_eucl. change IntDef.Z.shiftl with Z.shiftl.
  change (Zdigits2 4503599627370496) with 53.
  set (e' := Z.min _ _).
  set (m' := match e - -22 - e' with 0 => _ | Z.pos _ => _ | Z.neg _ => _ end).
  assert (He' : e' <= e + 22) by (unfold e'; lia).
  assert (Hm' : 0 <= m' /\ Zdigits2 m' + e' <= Zdigits2 (Zpos m) + e + 22).
  { unfold m'. destruct (e - -22 - e') as [|d|d] eqn:Hs.
    - lia.
    - rewrite Zdigits2_shiftl by lia. split; [apply Z.shiftl_nonneg|]; lia.
    - simpl Zdigits2 at 1. pose proof (Zdigits2_nonneg (Zpos m)). lia. }
  pose proof (Z.div_eucl_eq m' (Zpos 4503599627370496) ltac:(lia)) as Hdiv.
  pose proof (Z_div_mod m' (Zpos 4503599627370496) ltac:(lia)) as Hmod.
  destruct (Z.div_eucl m' (Zpos 4503599627370496)) as [q r].
  assert (Hq : 0 <= q <= m') by nia.
  apply binary_round_aux_bounded; try lia.
  pose proof (Zdigits2_mono q m' Hq). lia.
Qed.

Lemma toGB_bounded (bytes : int64) : SF_bounded 35 (toGB bytes).
Proof.
  unfold toGB. apply float64_div_GB_bounded, float64_of_Z_bounded.
  destruct bytes as [z Hz]. cbn [int64_Z]. unfold int64_range in Hz.
  apply andb_true_iff in Hz as [H1 H2]. apply Z.leb_le in H1. apply Z.ltb_lt in H2. lia.
Qed.

Lemma toGB_finite (bytes : int64) : float64_IsInfOrNaN (toGB bytes) = false.
Proof. pose proof (toGB_bounded bytes) as H. by destruct (toGB bytes). Qed.

(** ** Whole gibibytes convert exactly *)

Lemma shr_fexp_canonical (m : positive) (e : Z) :
  Zdigits2 (Zpos m) = 53 -> -1074 <= e ->
  shr_fexp 53 1024 (Zpos m) e loc_Exact
  = ({| shr_m := Zpos m; shr_r := false; shr_s := false |}, e).
Proof.
  intros Hd He. unfold shr_fexp, fexp, emin. rewrite Hd.
  change IntDef.Z.max with Z.max.
  replace (Z.max (53 + e - 53) (3 - 1024 - 53) - e) with 0 by lia. reflexivity.
Qed.

Lemma shr_fexp_even (m : positive) (e : Z) :
  Zdigits2 (Zpos m) = 53 -> -1075 <= e ->
  shr_fexp 53 1024 (Zpos m~0) e loc_Exact
  = ({| shr_m := Zpos m; shr_r := false; shr_s := false |}, e + 1).
Proof.
  intros Hd He. unfold shr_fexp, fexp, emin.
  change (Zdigits2 (Zpos m~0)) with (Zpos (Pos.succ (digits2_pos m))).
  rewrite Pos2Z.inj_succ. change (Zpos (digits2_pos m)) with (Zdigits2 (Zpos m)). rewrite Hd.
  change IntDef.Z.max with Z.max.
  replace (Z.max (Z.succ 53 + e - 53) (3 - 1024 - 53) - e) with 1 by lia. reflexivity.
Qed.

Lemma binary_round_aux_canonical (s : bool) (m : positive) (e : Z) :
  Zdigits2 (Zpos m) = 53 -> -1074 <= e <= 971 ->
  binary_round_aux 53 1024 s (Zpos m) e loc_Exact = S754_finite s m e.
Proof.
  intros Hd He. unfold binary_round_aux.
  rewrite shr_fexp_canonical by lia. cbn [shr_m loc_of_shr_record round_nearest_even].
  rewrite shr_fexp_canonical by lia. cbn [shr_m].
  destruct (Z.leb_spec e (1024 - 53)); [done|lia].
Qed.

Lemma binary_round_aux_even (s : bool) (m : positive) (e : Z) :
  Zdigits2 (Zpos m) = 53 -> -1075 <= e <= 970 ->
  binary_round_aux 53 1024 s (Zpos m~0) e loc_Exact = S754_finite s m (e + 1).
Proof.
  intros Hd He. unfold binary_round_aux.
  rewrite shr_fexp_even by lia. cbn [shr_m loc_of_shr_record round_nearest_even].
  rewrite shr_fexp_canonical by lia. cbn [shr_m].
  destruct (Z.leb_spec (e + 1) (1024 - 53)); [done|lia].
Qed.

Lemma float64_div_GB_exact (s : bool) (m : positive) (e : Z) :
  Zdigits2 (Zpos m) = 53 -> -1043 <= e <= 1001 ->
  float64_div (S754_finite s m e) (float64_of_Z bytesPerGB) = S754_finite s m (e - 30).
Proof.
  intros Hd He.
  change (float64_of_Z bytesPerGB) with (S754_finite false 4503599627370496 (-22)).
  unfold float64_div, SFdiv, SFdiv_core_binary, fexp, emin, prec64, emax64.
  change IntDef.Z.min with Z.min. change IntDef.Z.max with Z.max.
  change IntDef.Z.div_eucl with Z.div_eucl. change IntDef.Z.shiftl with Z.shiftl.
  change (Zdigits2 4503599627370496) with 53. rewrite Hd.
  replace (Z.min (Z.max (53 + e - (53 + -22) - 53) (3 - 1024 - 53)) (e - -22))
    with (e - 31) by lia.
  replace (e - -22 - (e - 31)) with 53 by lia.
  assert (Hdiv : Z.div_eucl (Z.shiftl (Zpos m) 53) 4503599627370496 = (Zpos m~0, 0)).
  { rewrite Z.shiftl_mul_pow2 by lia.
    replace (Zpos m * 2 ^ 53) with (Zpos m~0 * 4503599627370496) by lia.
    pose proof (Z.div_mul (Zpos m~0) 4503599627370496 ltac:(lia)) as Hq.
    pose proof (Z.mod_mul (Zpos m~0) 4503599627370496 ltac:(lia)) as Hr.
    unfold Z.div, Z.modulo in Hq, Hr.
    destruct (Z.div_eucl (Zpos m~0 * 4503599627370496) 4503599627370496) as [q r].
    by subst. }
  rewrite Hdiv. change (new_location 4503599627370496 0) with loc_Exact.
  rewrite binary_round_aux_even by lia. rewrite xorb_false_r. f_equal. lia.
Qed.

Lemma Zpos_iter_xO (p d : positive) : Zpos (Pos.iter xO p d) = Zpos p * 2 ^ Zpos d.
Proof.
  induction d as [|d IH] using Pos.peano_ind.
  - cbn. lia.
  - rewrite Pos.iter_succ, Pos2Z.inj_xO, IH, Pos2Z.inj_succ, Z.pow_succ_r by lia. lia.
Qed.

Lemma float64_of_Z_exact (p : positive) :
  Zdigits2 (Zpos p) <= 53 ->
  exists m, float64_of_Z (Zpos p) = S754_finite false m (Zdigits2 (Zpos p) - 53)
            /\ Zdigits2 (Zpos m) = 53
            /\ Zpos m = Zpos p * 2 ^ (53 - Zdigits2 (Zpos p)).
Proof.
  intros Hd. unfold float64_of_Z, binary_normalize, binary_round, shl_align, fexp, emin,
    prec64, emax64.
  change IntDef.Z.max with Z.max.
  change (Zpos (digits2_pos p)) with (Zdigits2 (Zpos p)).
  pose proof (Zdigits2_log2 (Zpos p) ltac:(lia)) as Hlog.
  pose proof (Z.log2_nonneg (Zpos p)) as Hnn.
  destruct (Z.max (Zdigits2 (Zpos p) + 0 - 53) (3 - 1024 - 53) - 0) as [|d|d] eqn:Hshift.
  - exists p. assert (Hp : Zdigits2 (Zpos p) = 53) by lia.
    rewrite binary_round_aux_canonical by lia. rewrite Hp. split; [done|]. split; [done|]. lia.
  - lia.
  - exists (Pos.iter xO p d).
    assert (Hm : Zdigits2 (Zpos (Pos.iter xO p d)) = 53).
    { cbn [Zdigits2]. rewrite digits2_pos_iter_xO.
      change (Zpos (digits2_pos p)) with (Zdigits2 (Zpos p)). lia. }
    rewrite binary_round_aux_canonical by lia.
    split; [f_equal; lia|]. split; [done|].
    rewrite Zpos_iter_xO. f_equal. f_equal. lia.
Qed.

Lemma iter_pos_Pos_iter {A} (f : A -> A) (n : positive) (x : A) :
  SpecFloat.iter_pos f n x = Pos.iter f x n.
Proof.
  revert x. induction n as [n IH|n IH|]; intros x; cbn [SpecFloat.iter_pos Pos.iter].
  - by rewrite !IH, !Pos.iter_swap.
  - by rewrite !IH.
  - done.
Qed.

Lemma iter_pos_shr_1_exact (q n : positive) :
  SpecFloat.iter_pos shr_1 n
    {| shr_m := Zpos (Pos.iter xO q n); shr_r := false; shr_s := false |}
  = {| shr_m := Zpos q; shr_r := false; shr_s := false |}.
Proof.
  rewrite iter_pos_Pos_iter. induction n as [|n IH] using Pos.peano_ind; [done|].
  rewrite Pos.iter_succ_r, Pos.iter_succ. exact IH.
Qed.

Lemma float64_of_Z_shifted (q n : positive) :
  Zdigits2 (Zpos q) = 53 -> Zpos n <= 971 ->
  float64_of_Z (Zpos (Pos.iter xO q n)) = S754_finite false q (Zpos n).
Proof.
  intros Hq Hn.
  assert (Hd : Zdigits2 (Zpos (Pos.iter xO q n)) = 53 + Zpos n).
  { cbn [Zdigits2]. rewrite digits2_pos_iter_xO.
    change (Zpos (digits2_pos q)) with (Zdigits2 (Zpos q)). lia. }
  unfold float64_of_Z, binary_normalize, binary_round, shl_align, fexp, emin, prec64, emax64.
  change IntDef.Z.max with Z.max.
  change (Zpos (digits2_pos (Pos.iter xO q n))) with (Zdigits2 (Zpos (Pos.iter xO q n))).
  rewrite Hd.
  replace (Z.max (53 + Zpos n + 0 - 53) (3 - 1024 - 53) - 0) with (Zpos n) by lia.
  unfold binary_round_aux.
  assert (Hshr : shr_fexp 53 1024 (Zpos (Pos.iter xO q n)) 0 loc_Exact
                 = ({| shr_m := Zpos q; shr_r := false; shr_s := false |}, Zpos n)).
  { unfold shr_fexp, fexp, emin. rewrite Hd. change IntDef.Z.max with Z.max.
    replace (Z.max (53 + Zpos n + 0 - 53) (3 - 1024 - 53) - 0) with (Zpos n) by lia.
    cbn [shr shr_record_of_loc]. by rewrite iter_pos_shr_1_exact. }
  rewrite Hshr. cbn [shr_m loc_of_shr_record round_nearest_even].
  rewrite shr_fexp_canonical by lia. cbn [shr_m].
  destruct (Z.leb_spec (Zpos n) (1024 - 53)); [done|lia].
Qed.

Lemma toGB_whole (bytes : int64) (k : Z) :
  0 <= k -> int64_Z bytes = k * bytesPerGB -> toGB bytes = float64_of_Z k.
Proof.
  intros Hk Hbytes. unfold toGB.
  assert (HGB : bytesPerGB = 2 ^ 30) by reflexivity.
  assert (Hk33 : k < 2 ^ 33).
  { destruct bytes as [z Hz]. cbn [int64_Z] in Hbytes. unfold int64_range in Hz.
    apply andb_true_iff in Hz as [_ Hz]. apply Z.ltb_lt in Hz. lia. }
  rewrite Hbytes. clear Hbytes.
  destruct k as [|pk|pk]; [reflexivity| |lia].
  assert (Hdk : 1 <= Zdigits2 (Zpos pk) <= 33).
  { split.
    - rewrite Zdigits2_log2 by lia. pose proof (Z.log2_nonneg (Zpos pk)). lia.
    - change 33 with (Zdigits2 (2 ^ 33 - 1)). apply Zdigits2_mono. lia. }
  destruct (float64_of_Z_exact pk ltac:(lia)) as (mk & -> & Hmk & Hvk).
  destruct (Z_le_gt_dec (Zdigits2 (Zpos pk)) 23) as [Hsmall|Hlarge].
  - assert (Hdb : Zdigits2 (Zpos pk * bytesPerGB) = Zdigits2 (Zpos pk) + 30).
    { rewrite <- Zdigits2_shiftl by lia. f_equal.
      rewrite Z.shiftl_mul_pow2 by lia. by rewrite HGB. }
    destruct (Zpos pk * bytesPerGB) as [|pb|pb] eqn:Hpb; [lia| |lia].
    destruct (float64_of_Z_exact pb ltac:(lia)) as (mb & -> & Hmb & Hvb).
    rewrite float64_div_GB_exact by lia.
    assert (Hm : mb = mk).
    { apply Pos2Z.inj. rewrite Hvb, Hvk, Hdb, <- Hpb.
      replace (53 - Zdigits2 (Zpos pk)) with (30 + (53 - (Zdigits2 (Zpos pk) + 30))) by lia.
      rewrite Z.pow_add_r by lia. rewrite HGB. lia. }
    rewrite Hm. f_equal. lia.
  - destruct (Zdigits2 (Zpos pk) - 23) as [|n|n] eqn:Hn; [lia| |lia].
    destruct (53 - Zdigits2 (Zpos pk)) as [|u|u] eqn:Hu; [lia| |lia].
    assert (Hpb : Zpos pk * bytesPerGB = Zpos (Pos.iter xO mk n)).
    { rewrite Zpos_iter_xO, Hvk, HGB, <- Z.mul_assoc, <- Z.pow_add_r by lia.
      f_equal. f_equal. lia. }
    rewrite Hpb, float64_of_Z_shifted by lia.
    rewrite float64_div_GB_exact by lia. f_equal. lia.
Qed.

(** ** The datastore map and the membership tests *)

Lemma build_datastoreMap_fold dss (m0 : gmap string mo_Datastore) v :
  fold_left (fun m ds => <[Value (ds_Self ds) := ds]> m) dss m0 !! v =
  match List.find (fun ds => String.eqb (refValue ds) v) (rev dss) with
  | Some ds => Some ds
  | None => m0 !! v
  end.
Proof.
  revert m0. induction dss as [|ds dss IH]; intros m0; [reflexivity|].
  cbn [fold_left rev]. rewrite IH.
  assert (Hfind : forall l,
    List.find (fun d => String.eqb (refValue d) v) (l ++ [ds]) =
    match List.find (fun d => String.eqb (refValue d) v) l with
    | Some d => Some d
    | None => if String.eqb (refValue ds) v then Some ds else None
    end).
  { induction l as [|d l IHl]; cbn; [done|]. destruct (String.eqb (refValue d) v); auto. }
  rewrite Hfind. destruct (List.find _ (rev dss)); [done|].
  unfold refValue. destruct (String.eqb_spec (Value (ds_Self ds)) v) as [->|Hne].
  - by rewrite lookup_insert_eq.
  - by rewrite lookup_insert_ne.
Qed.

Lemma build_datastoreMap_Some dss v ds :
  build_datastoreMap dss !! v = Some ds -> In ds dss /\ refValue ds = v.
Proof.
  unfold build_datastoreMap. rewrite build_datastoreMap_fold, lookup_empty.
  destruct (List.find _ (rev dss)) as [d|] eqn:Hf; [|done].
  intros [= ->]. apply find_some in Hf as [Hin Heq].
  apply in_rev in Hin. by apply String.eqb_eq in Heq.
Qed.

Lemma build_datastoreMap_is_Some dss v :
  is_Some (build_datastoreMap dss !! v) <-> In v (map refValue dss).
Proof.
  split.
  - intros [ds Hds]. apply build_datastoreMap_Some in Hds as [Hin <-]. by apply in_map.
  - intros Hin. apply in_map_iff in Hin as (ds & <- & Hin).
    unfold build_datastoreMap. rewrite build_datastoreMap_fold.
    destruct (List.find _ (rev dss)) as [d|] eqn:Hf; [by eexists|].
    apply in_rev in Hin. pose proof (find_none _ _ Hf ds Hin) as Hn. cbn in Hn.
    by rewrite String.eqb_refl in Hn.
Qed.

Lemma childEntity_has_true children v :
  childEntity_has children v = true <-> In v (map Value children).
Proof.
  induction children as [|c children IH]; cbn; [split; [discriminate|tauto]|].
  destruct (String.eqb_spec (Value c) v) as [->|Hne]; [tauto|].
  rewrite IH. split; [tauto|]. intros [?|?]; [congruence|done].
Qed.

Lemma belongsToStoragePod_true pods v :
  belongsToStoragePod pods v = true <->
  exists pod, In pod pods /\ In v (map Value (pod_ChildEntity pod)).
Proof.
  induction pods as [|pod pods IH]; cbn.
  - split; [discriminate|]. by intros (? & [] & _).
  - destruct (childEntity_has (pod_ChildEntity pod) v) eqn:Hc.
    + apply childEntity_has_true in Hc. split; [|done]. intros _. exists pod. tauto.
    + rewrite IH. split.
      * intros (p & Hp & Hv). exists p. tauto.
      * intros (p & [<-|Hp] & Hv).
        -- apply childEntity_has_true in Hv. congruence.
        -- by exists p.
Qed.


Lemma pod_members_In dss pod ds :
  In ds (pod_members (build_datastoreMap dss) pod) <->
  In (refValue ds) (map Value (pod_ChildEntity pod))
  /\ build_datastoreMap dss !! refValue ds = Some ds.
Proof.
  unfold pod_members. rewrite <- list_elem_of_In, list_elem_of_omap. split.
  - intros (c & Hc & Hds). pose proof (build_datastoreMap_Some _ _ _ Hds) as [_ Hv].
    rewrite Hv. split; [|done]. apply in_map. by apply list_elem_of_In.
  - intros [Hin Hds]. apply in_map_iff in Hin as (c & Hc & Hin).
    exists c. split; [by apply list_elem_of_In|]. by rewrite Hc.
Qed.

Lemma pod_members_refs dss pod v :
  In v (map refValue (pod_members (build_datastoreMap dss) pod)) <->
  In v (map Value (pod_ChildEntity pod)) /\ In v (map refValue dss).
Proof.
  rewrite in_map_iff. split.
  - intros (ds & <- & Hds). apply pod_members_In in Hds as [Hc Hds]. split; [done|].
    apply build_datastoreMap_is_Some. by eexists.
  - intros [Hc Hd]. apply build_datastoreMap_is_Some in Hd as [ds Hds].
    pose proof (build_datastoreMap_Some _ _ _ Hds) as [_ Hv]. exists ds. split; [done|].
    apply pod_members_In. by rewrite Hv.
Qed.

Lemma grouped_datastores_refs pods dss v :
  In v (map refValue (grouped_datastores pods dss)) <->
  In v (map refValue dss) /\ belongsToStoragePod pods v = true.
Proof.
  unfold grouped_datastores. rewrite belongsToStoragePod_true, in_map_iff. split.
  - intros (ds & <- & Hds). apply in_concat in Hds as (l & Hl & Hds).
    apply in_map_iff in Hl as (pod & <- & Hpod).
    assert (Hv : In (refValue ds) (map refValue (pod_members (build_datastoreMap dss) pod)))
      by (by apply in_map).
    apply pod_members_refs in Hv as [Hc Hd]. split; [done|]. by exists pod.
  - intros (Hd & pod & Hpod & Hc).
    assert (Hv : In v (map refValue (pod_members (build_datastoreMap dss) pod)))
      by (by apply pod_members_refs).
    apply in_map_iff in Hv as (ds & <- & Hds). exists ds. split; [done|].
    apply in_concat. exists (pod_members (build_datastoreMap dss) pod). split; [|done].
    by apply in_map.
Qed.

Lemma standalone_datastores_In pods dss ds :
  In ds (standalone_datastores pods dss) <->
  In ds dss /\ belongsToStoragePod pods (refValue ds) = false.
Proof.
  unfold standalone_datastores. rewrite filter_In.
  destruct (belongsToStoragePod pods (refValue ds)); cbn; intuition congruence.
Qed.

Lemma standalone_datastores_refs pods dss v :
  In v (map refValue (standalone_datastores pods dss)) <->
  In v (map refValue dss) /\ belongsToStoragePod pods v = false.
Proof.
  rewrite !in_map_iff. split.
  - intros (ds & <- & Hds). apply standalone_datastores_In in Hds as [Hin Hb].
    split; [by exists ds|done].
  - intros ((ds & <- & Hin) & Hb). exists ds. split; [done|].
    by apply standalone_datastores_In.
Qed.

(** ** The program on the example inventory *)

Example text_report_of_example :
  main Example.encodeString Example.encodeFloat (Example.config false) Example.inventory
  = os_Exit
      (text_lines
         ["Using datacenter: DC01";
          EmptyString;
          "Cluster: Cluster01";
          "------------------";
          "  Datastore Cluster: StoragePod01";
          "    - A (Capacity: 2048.00 GB, Free: 1024.00 GB)";
          "    - B (Capacity: 4096.00 GB, Free: 2048.00 GB)";
          "  Datastore Cluster: StoragePod02";
          "    - C (Capacity: 1024.00 GB, Free: 512.00 GB)";
          "  Datastore Cluster: StoragePod03";
          "    No datastores from this cluster in this datastore cluster";
          "  Standalone Datastores:";
          "    - D (Capacity: 8192.00 GB, Free: 4096.00 GB)";
          EmptyString;
          "Cluster: Cluster02";
          "------------------";
          "  Error getting cluster details: permission denied"])
      0.
Proof. vm_compute. reflexivity. Qed.

Example structured_report_of_example :
  let info name capacity free :=
    {| di_Name := name; di_Capacity := float64_of_Z capacity;
       di_FreeSpace := float64_of_Z free |} in
  range [Example.cluster01; Example.cluster02]
    (cluster_body (Example.config true) Example.inventory Example.dc01)
    (InfrastructureInfo_init (Example.config true) Example.dc01)
  = (EmptyString,
     {| ii_Datacenter := "DC01";
        ii_Clusters :=
          [{| ci_Name := "Cluster01";
              ci_DatastoreClusters :=
                [{| dci_Name := "StoragePod01";
                    dci_Datastores := [info "A" 2048 1024; info "B" 4096 2048] |};
                 {| dci_Name := "StoragePod02";
                    dci_Datastores := [info "C" 1024 512] |}];
              ci_StandaloneDatastores := [info "D" 8192 4096] |}] |}).
Proof. vm_compute. reflexivity. Qed.

Example fmt_2f_rounds_half_to_even :
  fmt_2f (float64_div (float64_of_Z 1) (float64_of_Z 8)) = "0.12"
  /\ fmt_2f (float64_div (float64_of_Z 3) (float64_of_Z 8)) = "0.38"
  /\ fmt_2f (float64_div (float64_of_Z 1) (float64_of_Z 3)) = "0.33"
  /\ fmt_2f (toGB (Int64 (-1) eq_refl)) = "-0.00".
Proof. repeat split; vm_compute; reflexivity. Qed.

(** ** The datastores of a cluster, under the storage pods or standalone *)

(** C1. The report of a cluster lists every datastore retrieved for the
    cluster, under the storage pods or as standalone, and no datastore in
    both: as sets of reference values, the datastores listed under the storage
    pods and the standalone ones are disjoint and together are the retrieved
    ones, and every datastore listed is a retrieved one.  The structured report
    holds the summaries of the first list under the storage pods and those of
    the second as standalone; the text report writes their lines. *)
Theorem cluster_report_partitions_datastores cfg cluster pods dss :
  let grouped := grouped_datastores pods dss in
  let standalone := standalone_datastores pods dss in
  let out := reportCluster cfg pods dss (ClusterInfo_init cfg cluster) in
  (if OutputJSON cfg
   then concat (map dci_Datastores (ci_DatastoreClusters (snd out)))
          = map datastoreInfo grouped
        /\ ci_StandaloneDatastores (snd out) = map datastoreInfo standalone
   else fst out = pods_text (build_datastoreMap dss) pods +:+ standalone_text standalone)
  /\ (forall v, In v (map refValue dss) <->
                In v (map refValue grouped) \/ In v (map refValue standalone))
  /\ (forall v, ~ (In v (map refValue grouped) /\ In v (map refValue standalone)))
  /\ (forall ds, In ds grouped \/ In ds standalone -> In ds dss).
Proof.
  cbn zeta. rewrite reportCluster_eq. repeat split.
  - destruct (OutputJSON cfg) eqn:HJ; cbn [fst snd]; [|reflexivity].
    unfold ClusterInfo_init. rewrite HJ. unfold cluster_report. cbn. split; [|done].
    unfold grouped_datastores. generalize (build_datastoreMap dss) as m. intros m.
    induction pods as [|pod pods IH]; [done|].
    cbn [omap list_omap map concat]. rewrite map_app, <- IH.
    unfold pod_entry at 1. by destruct (pod_members m pod).
  - intros Hv. destruct (belongsToStoragePod pods v) eqn:Hb.
    + left. by apply grouped_datastores_refs.
    + right. by apply standalone_datastores_refs.
  - intros [Hv|Hv].
    + by apply grouped_datastores_refs in Hv as [? _].
    + by apply standalone_datastores_refs in Hv as [? _].
  - intros v [Hg Hs]. apply grouped_datastores_refs in Hg as [_ Hg].
    apply standalone_datastores_refs in Hs as [_ Hs]. congruence.
  - intros ds [Hg|Hs].
    + unfold grouped_datastores in Hg. apply in_concat in Hg as (l & Hl & Hds).
      apply in_map_iff in Hl as (pod & <- & _). apply pod_members_In in Hds as [_ Hds].
      by apply build_datastoreMap_Some in Hds as [? _].
    + by apply standalone_datastores_In in Hs as [? _].
Qed.

(** ** The listings of a reference value *)

Lemma occurrences_app v l1 l2 : occurrences v (l1 ++ l2) = (occurrences v l1 + occurrences v l2)%nat.
Proof. unfold occurrences. by rewrite List.filter_app, length_app. Qed.

Lemma occurrences_cons v x l :
  occurrences v (x :: l) = ((if String.eqb v x then 1 else 0) + occurrences v l)%nat.
Proof. unfold occurrences. cbn. by destruct (String.eqb v x). Qed.

Lemma occurrences_zero v l : ~ In v l -> occurrences v l = 0%nat.
Proof.
  induction l as [|x l IH]; [done|]. intros Hin. rewrite occurrences_cons, IH.
  - destruct (String.eqb_spec v x) as [->|]; [|done]. exfalso. apply Hin. by left.
  - intros ?. apply Hin. by right.
Qed.

Lemma occurrences_pos v l : In v l -> (1 <= occurrences v l)%nat.
Proof.
  induction l as [|x l IH]; [done|]. rewrite occurrences_cons. intros [->|Hin].
  - rewrite String.eqb_refl. lia.
  - specialize (IH Hin). lia.
Qed.

Lemma occurrences_NoDup v l : List.NoDup l -> In v l -> occurrences v l = 1%nat.
Proof.
  induction 1 as [|x l Hx Hl IH]; [done|]. rewrite occurrences_cons. intros [->|Hin].
  - by rewrite String.eqb_refl, occurrences_zero.
  - rewrite IH by done. destruct (String.eqb_spec v x) as [->|]; [done|lia].
Qed.

Lemma pod_members_occurrences dss pod v :
  occurrences v (map refValue (pod_members (build_datastoreMap dss) pod)) =
  if bool_decide (v ∈ map refValue dss)
  then occurrences v (map Value (pod_ChildEntity pod)) else 0%nat.
Proof.
  unfold pod_members. induction (pod_ChildEntity pod) as [|c children IH].
  - by case_bool_decide.
  - cbn [omap list_omap map]. rewrite occurrences_cons.
    destruct (build_datastoreMap dss !! Value c) as [ds|] eqn:Hc.
    + pose proof (build_datastoreMap_Some _ _ _ Hc) as [Hin Hv].
      cbn [map]. rewrite occurrences_cons, IH, Hv.
      case_bool_decide as Hd; [done|].
      destruct (String.eqb_spec v (Value c)) as [->|]; [|done].
      exfalso. apply Hd. apply list_elem_of_In. rewrite <- Hv. by apply in_map.
    + rewrite IH. case_bool_decide as Hd; [|done].
      destruct (String.eqb_spec v (Value c)) as [->|]; [|done].
      apply list_elem_of_In, build_datastoreMap_is_Some in Hd as [ds Hds]. congruence.
Qed.

Lemma grouped_datastores_occurrences pods dss v :
  occurrences v (map refValue (grouped_datastores pods dss)) =
  if bool_decide (v ∈ map refValue dss) then member_occurrences pods v else 0%nat.
Proof.
  unfold grouped_datastores, member_occurrences.
  induction pods as [|pod pods IH]; [by case_bool_decide|].
  cbn [map concat]. rewrite !map_app, !occurrences_app, IH, pod_members_occurrences.
  by case_bool_decide.
Qed.

Lemma standalone_datastores_occurrences pods dss v :
  occurrences v (map refValue (standalone_datastores pods dss)) =
  if belongsToStoragePod pods v then 0%nat else occurrences v (map refValue dss).
Proof.
  unfold standalone_datastores. induction dss as [|ds dss IH].
  - by destruct (belongsToStoragePod pods v).
  - cbn [List.filter map]. rewrite occurrences_cons.
    destruct (String.eqb_spec v (refValue ds)) as [->|Hne].
    + destruct (belongsToStoragePod pods (refValue ds)); cbn [negb map]; [done|].
      by rewrite occurrences_cons, String.eqb_refl, IH.
    + destruct (belongsToStoragePod pods (refValue ds)); cbn [negb map]; [done|].
      rewrite occurrences_cons, IH. by destruct (String.eqb_spec v (refValue ds)).
Qed.

Lemma belongsToStoragePod_member_occurrences pods v :
  belongsToStoragePod pods v = true <-> (1 <= member_occurrences pods v)%nat.
Proof.
  rewrite belongsToStoragePod_true. unfold member_occurrences. split.
  - intros (pod & Hpod & Hv). apply occurrences_pos.
    apply in_map_iff in Hv as (c & <- & Hc). apply in_map, in_concat.
    exists (pod_ChildEntity pod). split; [by apply in_map|done].
  - intros Hocc. destruct (in_dec string_dec v (map Value (concat (map pod_ChildEntity pods))))
      as [Hin|Hnin]; [|rewrite occurrences_zero in Hocc by done; lia].
    apply in_map_iff in Hin as (c & <- & Hc). apply in_concat in Hc as (l & Hl & Hc).
    apply in_map_iff in Hl as (pod & <- & Hpod). exists pod. split; [done|]. by apply in_map.
Qed.

(** C2, amended to what the code does.  The report lists a reference value of the
    cluster's datastores under every storage pod whose member list names it,
    once for each time the list names it, and as standalone when no member list
    names it, once for each datastore retrieved with it; never both under a
    storage pod and as standalone.  It is listed exactly once when the
    datastores retrieved have distinct reference values and the member lists
    name it at most once in all. *)
Theorem reference_listed_per_member_list cfg pods dss clusterInfo v :
  reportCluster cfg pods dss clusterInfo
  = (if OutputJSON cfg then (EmptyString, cluster_report pods dss clusterInfo)
     else (cluster_text pods dss, clusterInfo))
  /\ (forall pod,
        occurrences v (map refValue (pod_members (build_datastoreMap dss) pod))
        = if bool_decide (v ∈ map refValue dss)
          then occurrences v (map Value (pod_ChildEntity pod)) else 0%nat)
  /\ occurrences v (map refValue (standalone_datastores pods dss))
     = (if belongsToStoragePod pods v then 0%nat else occurrences v (map refValue dss))
  /\ times_listed pods dss v
     = ((if bool_decide (v ∈ map refValue dss) then member_occurrences pods v else 0)
        + (if belongsToStoragePod pods v then 0 else occurrences v (map refValue dss)))%nat
  /\ ~ (In v (map refValue (grouped_datastores pods dss))
        /\ In v (map refValue (standalone_datastores pods dss)))
  /\ (List.NoDup (map refValue dss) -> In v (map refValue dss) ->
      (member_occurrences pods v <= 1)%nat -> times_listed pods dss v = 1%nat).
Proof.
  assert (Htimes : times_listed pods dss v
     = ((if bool_decide (v ∈ map refValue dss) then member_occurrences pods v else 0)
        + (if belongsToStoragePod pods v then 0 else occurrences v (map refValue dss)))%nat).
  { unfold times_listed.
    by rewrite grouped_datastores_occurrences, standalone_datastores_occurrences. }
  split; [apply reportCluster_eq|].
  split; [intros pod; apply pod_members_occurrences|].
  split; [apply standalone_datastores_occurrences|].
  split; [exact Htimes|]. split.
  - intros [Hg Hs]. apply grouped_datastores_refs in Hg as [_ Hg].
    apply standalone_datastores_refs in Hs as [_ Hs]. congruence.
  - intros Hnd Hin Hocc. rewrite Htimes.
    rewrite bool_decide_eq_true_2 by (by apply list_elem_of_In).
    destruct (belongsToStoragePod pods v) eqn:Hb.
    + apply belongsToStoragePod_member_occurrences in Hb. lia.
    + rewrite occurrences_NoDup by done.
      destruct (member_occurrences pods v) as [|n] eqn:Hm; [done|].
      assert (Hb' : belongsToStoragePod pods v = true)
        by (apply belongsToStoragePod_member_occurrences; lia).
      congruence.
Qed.

(** C2 as stated does not hold: datastore A, named by the member lists of
    two storage pods, is listed under both. *)
Lemma shared_member_listed_under_both_pods :
  snd (reportCluster (Example.config true) [Example.pod1; Example.pod_shared] [Example.dsA]
         (ClusterInfo_init (Example.config true) Example.cluster01))
  = {| ci_Name := "Cluster01";
       ci_DatastoreClusters :=
         [{| dci_Name := "StoragePod01"; dci_Datastores := [datastoreInfo Example.dsA] |};
          {| dci_Name := "StoragePod04"; dci_Datastores := [datastoreInfo Example.dsA] |}];
       ci_StandaloneDatastores := [] |}
  /\ times_listed [Example.pod1; Example.pod_shared] [Example.dsA] "datastore-1" = 2%nat.
Proof. split; vm_compute; reflexivity. Qed.

(** ** The JSON encoder never refuses a report *)

Lemma find_IsInfOrNaN_None (l : list float64) :
  Forall (fun f => float64_IsInfOrNaN f = false) l -> List.find float64_IsInfOrNaN l = None.
Proof. induction 1 as [|f l Hf _ IH]; [done|]. cbn. by rewrite Hf. Qed.

Lemma floats_datastoreInfo_finite (l : list mo_Datastore) :
  Forall (fun f => float64_IsInfOrNaN f = false)
         (concat (map floats_DatastoreInfo (map datastoreInfo l))).
Proof.
  induction l as [|ds l IH]; [constructor|].
  cbn. repeat constructor; auto using toGB_finite.
Qed.

Lemma floats_pod_entries_finite (m : gmap string mo_Datastore) (pods : list mo_StoragePod) :
  Forall (fun f => float64_IsInfOrNaN f = false)
         (concat (map (fun g => concat (map floats_DatastoreInfo (dci_Datastores g)))
                      (omap (pod_entry m) pods))).
Proof.
  induction pods as [|pod pods IH]; [constructor|].
  cbn [omap list_omap]. unfold pod_entry at 1.
  destruct (pod_members m pod) as [|ds members] eqn:Hm; [exact IH|].
  cbn [map concat dci_Datastores]. apply Forall_app. split; [|exact IH].
  apply (floats_datastoreInfo_finite (ds :: members)).
Qed.

Lemma floats_cluster_entry_finite cfg inv dc cluster ci :
  cluster_entry cfg inv dc cluster = Some ci ->
  Forall (fun f => float64_IsInfOrNaN f = false) (floats_ClusterInfo ci).
Proof.
  unfold cluster_entry. destruct (readCluster inv dc cluster) as [[pods dss]|]; [|done].
  intros [= <-]. unfold floats_ClusterInfo, cluster_report, ClusterInfo_init.
  destruct (OutputJSON cfg); cbn [ci_DatastoreClusters ci_StandaloneDatastores ClusterInfo_zero app];
    apply Forall_app; split;
    auto using floats_pod_entries_finite, floats_datastoreInfo_finite.
Qed.

Section Run.

Variable json_encodeString : string -> string.
Variable json_encodeFloat : float64 -> string.

Lemma json_MarshalIndent_clusters cfg inv dc clusters :
  json_MarshalIndent json_encodeString json_encodeFloat
    (add_clusters (InfrastructureInfo_init cfg dc) (omap (cluster_entry cfg inv dc) clusters))
  = Ok (json_InfrastructureInfo json_encodeString json_encodeFloat
          (add_clusters (InfrastructureInfo_init cfg dc)
             (omap (cluster_entry cfg inv dc) clusters))).
Proof.
  unfold json_MarshalIndent. rewrite find_IsInfOrNaN_None; [done|].
  unfold floats_InfrastructureInfo, add_clusters, InfrastructureInfo_init.
  assert (Hinit : ii_Clusters (if OutputJSON cfg
                               then {| ii_Datacenter := dc_Name dc; ii_Clusters := [] |}
                               else {| ii_Datacenter := EmptyString; ii_Clusters := [] |}) = [])
    by (by destruct (OutputJSON cfg)).
  cbn [ii_Clusters]. rewrite Hinit. cbn [app].
  induction clusters as [|c clusters IH]; [constructor|].
  cbn [omap list_omap]. destruct (cluster_entry cfg inv dc c) as [ci|] eqn:Hc; [|exact IH].
  cbn [map concat]. apply Forall_app. split; [|exact IH].
  by eapply floats_cluster_entry_finite.
Qed.

(** Lines 109 to 325 in closed form. *)
Lemma reportDatacenter_eq inv cfg dc :
  reportDatacenter json_encodeString json_encodeFloat inv cfg dc =
  let banner := if OutputJSON cfg then EmptyString
                else "Using datacenter: " +:+ dc_Name dc +:+ LF in
  match finder_ClusterComputeResourceList inv dc "*" with
  | Err err => os_Exit (banner +:+ "Error getting clusters: " +:+ err +:+ LF) 1
  | Ok [] => os_Exit (banner +:+ "No clusters found in the selected datacenter." +:+ LF) 0
  | Ok clusters =>
      if OutputJSON cfg then
        os_Exit (json_InfrastructureInfo json_encodeString json_encodeFloat
                   (add_clusters (InfrastructureInfo_init cfg dc)
                      (omap (cluster_entry cfg inv dc) clusters)) +:+ LF) 0
      else os_Exit (banner +:+ strings_concat (map (cluster_section inv dc) clusters)) 0
  end.
Proof.
  unfold reportDatacenter. cbn zeta.
  assert (Hbanner : fst (when (negb (OutputJSON cfg))
                           (Printf ("Using datacenter: " +:+ dc_Name dc +:+ LF)))
                    = if OutputJSON cfg then EmptyString
                      else "Using datacenter: " +:+ dc_Name dc +:+ LF)
    by (by destruct (OutputJSON cfg)).
  rewrite Hbanner. clear Hbanner.
  destruct (finder_ClusterComputeResourceList inv dc "*") as [clusters|err]; [|done].
  destruct clusters as [|c clusters]; [done|].
  cbn [length Nat.eqb]. rewrite range_cluster_body.
  destruct (OutputJSON cfg) eqn:HJ.
  - pose proof (json_MarshalIndent_clusters cfg inv dc (c :: clusters)) as Hjson.
    rewrite Hjson. reflexivity.
  - reflexivity.
Qed.

Lemma reportDatacenter_exit_code inv cfg dc :
  exit_code (reportDatacenter json_encodeString json_encodeFloat inv cfg dc) =
  match finder_ClusterComputeResourceList inv dc "*" with
  | Err _ => 1
  | Ok _ => 0
  end.
Proof.
  rewrite reportDatacenter_eq. cbn zeta.
  destruct (finder_ClusterComputeResourceList inv dc "*") as [[|c clusters]|err]; try done.
  by destruct (OutputJSON cfg).
Qed.

End Run.

(** ** Degraded clusters *)

Lemma degraded_readCluster inv dc cluster :
  degraded inv dc cluster -> exists line, readCluster inv dc cluster = Err line.
Proof.
  unfold degraded, readCluster.
  intros [[err H]|[[err H]|(clusterMo & err & H1 & H2)]].
  - rewrite H. by eexists.
  - destruct (datastoreFolders inv dc); rewrite ?H; by eexists.
  - destruct (datastoreFolders inv dc); rewrite ?H1, ?H2; by eexists.
Qed.

Lemma omap_skip {A B} (f : A -> option B) (before after : list A) (x : A) :
  f x = None -> omap f (before ++ x :: after) = omap f (before ++ after).
Proof. intros Hx. rewrite !omap_app. cbn. by rewrite Hx. Qed.

(** C3, amended to what the code does.  When folder discovery or the retrieval of the
    properties fails for a cluster, the loop body ends at its [continue]: it
    writes nothing in structured mode (in text mode the heading and one error
    line) and appends no entry for the cluster, the loop goes on with the next
    cluster, the structured document is the one of the run without that
    cluster, and the run exits 0. *)
Theorem degraded_cluster_is_skipped (encS : string -> string) (encF : float64 -> string)
    cfg inv dc cluster :
  degraded inv dc cluster ->
  (forall infraInfo, exists line,
      cluster_body cfg inv dc infraInfo cluster
      = (if OutputJSON cfg then EmptyString else cluster_heading cluster +:+ line, infraInfo))
  /\ (forall before after infraInfo,
        snd (range (before ++ cluster :: after) (cluster_body cfg inv dc) infraInfo)
        = snd (range (before ++ after) (cluster_body cfg inv dc) infraInfo))
  /\ (forall before after,
        finder_ClusterComputeResourceList inv dc "*" = Ok (before ++ cluster :: after) ->
        exit_code (reportDatacenter encS encF inv cfg dc) = 0
        /\ (OutputJSON cfg = true ->
            stdout (reportDatacenter encS encF inv cfg dc)
            = json_InfrastructureInfo encS encF
                (add_clusters (InfrastructureInfo_init cfg dc)
                   (omap (cluster_entry cfg inv dc) (before ++ after))) +:+ LF)).
Proof.
  intros Hdeg. apply degraded_readCluster in Hdeg as [line Hline].
  assert (Hentry : cluster_entry cfg inv dc cluster = None)
    by (unfold cluster_entry; by rewrite Hline).
  split; [|split].
  - intros infraInfo. exists line. rewrite cluster_body_eq, Hentry.
    unfold cluster_section. rewrite Hline. change (option_list None) with (@nil ClusterInfo).
    rewrite add_clusters_nil. by destruct (OutputJSON cfg).
  - intros before after infraInfo. rewrite !range_cluster_body.
    destruct (OutputJSON cfg); cbn [snd]; [|done]. by rewrite omap_skip.
  - intros before after Hlist. split.
    + by rewrite reportDatacenter_exit_code, Hlist.
    + intros HJ. rewrite reportDatacenter_eq, Hlist, HJ. cbn zeta.
      destruct (before ++ cluster :: after) as [|c l] eqn:Hl; [by destruct before|].
      rewrite <- Hl. cbn [stdout os_Exit]. by rewrite omap_skip.
Qed.

Lemma degraded_cluster_is_skipped_witness :
  degraded Example.inventory Example.dc01 Example.cluster02
  /\ exit_code (reportDatacenter Example.encodeString Example.encodeFloat
                  Example.inventory (Example.config true) Example.dc01) = 0
  /\ stdout (reportDatacenter Example.encodeString Example.encodeFloat
               Example.inventory (Example.config true) Example.dc01)
     = json_InfrastructureInfo Example.encodeString Example.encodeFloat
         (add_clusters (InfrastructureInfo_init (Example.config true) Example.dc01)
            (omap (cluster_entry (Example.config true) Example.inventory Example.dc01)
                  [Example.cluster01])) +:+ LF.
Proof.
  assert (Hdeg : degraded Example.inventory Example.dc01 Example.cluster02)
    by (right; left; eexists; reflexivity).
  split; [exact Hdeg|].
  pose proof (degraded_cluster_is_skipped Example.encodeString Example.encodeFloat
                (Example.config true) Example.inventory Example.dc01 Example.cluster02 Hdeg)
    as (_ & _ & Hrun).
  destruct (Hrun [Example.cluster01] [] eq_refl) as [Hexit Hout].
  split; [exact Hexit|exact (Hout eq_refl)].
Defined.

(** C3 as stated does not hold: Cluster02, whose details cannot be read, has
    no entry in the structured output of the run, which holds Cluster01 alone. *)
Lemma degraded_cluster_absent_from_structured_output :
  degraded Example.inventory Example.dc01 Example.cluster02
  /\ map ci_Name
       (ii_Clusters
          (snd (range [Example.cluster01; Example.cluster02]
                  (cluster_body (Example.config true) Example.inventory Example.dc01)
                  (InfrastructureInfo_init (Example.config true) Example.dc01))))
     = ["Cluster01"]
  /\ main Example.encodeString Example.encodeFloat (Example.config true) Example.inventory
     = os_Exit
         (json_InfrastructureInfo Example.encodeString Example.encodeFloat
            (snd (range [Example.cluster01; Example.cluster02]
                    (cluster_body (Example.config true) Example.inventory Example.dc01)
                    (InfrastructureInfo_init (Example.config true) Example.dc01))) +:+ LF) 0.
Proof.
  split; [right; left; eexists; reflexivity|].
  split; vm_compute; reflexivity.
Qed.

(** ** Storage pods without a datastore of the cluster *)







(** ** Bytes to GB *)

Lemma fmt_2f_one_GiB : fmt_2f (toGB one_GiB) = "1.00".
Proof. vm_compute. reflexivity. Qed.

(** C5. The divisor of the conversion is 1024 * 1024 * 1024, that is 2 ^ 30
    and not 10 ^ 9; 1,073,741,824 bytes are exactly the float 1, which [%.2f]
    writes as 1.00 in the line of a datastore and which the structured report
    holds as it is; 1,000,000,000 bytes are less than 1 GB (0.93).  Every
    whole number [k] of gibibytes converts to the float of [k], without
    rounding. *)
Theorem one_gibibyte_is_one_GB (self : ManagedObjectReference) (name : string) :
  let ds := {| ds_Self := self; ds_Name := name;
               ds_Summary := {| Capacity := one_GiB; FreeSpace := one_GiB |} |} in
  bytesPerGB = 2 ^ 30
  /\ bytesPerGB <> 10 ^ 9
  /\ toGB one_GiB = float64_one
  /\ fmt_2f (toGB one_GiB) = "1.00"
  /\ datastoreInfo ds
     = {| di_Name := name; di_Capacity := float64_one; di_FreeSpace := float64_one |}
  /\ datastoreLine ds = "    - " +:+ name +:+ " (Capacity: 1.00 GB, Free: 1.00 GB)" +:+ LF
  /\ toGB one_GB_decimal <> float64_one
  /\ fmt_2f (toGB one_GB_decimal) = "0.93"
  /\ (forall (bytes : int64) (k : Z),
        0 <= k -> int64_Z bytes = k * 1024 ^ 3 -> toGB bytes = float64_of_Z k).
Proof.
  cbn zeta. split; [reflexivity|]. split; [discriminate|].
  split; [vm_compute; reflexivity|]. split; [exact fmt_2f_one_GiB|].
  split; [unfold datastoreInfo; cbn; f_equal; vm_compute; reflexivity|].
  split.
  - unfold datastoreLine. cbn [ds_Name ds_Summary Capacity FreeSpace].
    rewrite fmt_2f_one_GiB. reflexivity.
  - split; [vm_compute; discriminate|]. split; [vm_compute; reflexivity|].
    intros bytes k Hk Hbytes. by apply toGB_whole.
Qed.

(** ** Exit codes *)

Lemma parseFlags_given cfg : credentials_given cfg -> parseFlags cfg = inr cfg.
Proof.
  intros (Hu & Hn & Hp). unfold parseFlags.
  apply String.eqb_neq in Hu, Hn, Hp. by rewrite Hu, Hn, Hp.
Qed.

Lemma parseFlags_missing cfg :
  ~ credentials_given cfg ->
  parseFlags cfg = inl (os_Exit ("Must specify vSphere URL, username, and password" +:+ LF
                                 +:+ "Usage:" +:+ LF) 1).
Proof.
  intros Hmiss. unfold parseFlags.
  destruct (String.eqb_spec (URL cfg) EmptyString); [done|].
  destruct (String.eqb_spec (Username cfg) EmptyString); [done|].
  destruct (String.eqb_spec (Password cfg) EmptyString); [done|].
  exfalso. by apply Hmiss.
Qed.

Lemma finder_contract_example : finder_contract Example.inventory.
Proof.
  split; intros dc path; [discriminate|].
  cbn. by destruct (String.eqb path "*/datastore").
Qed.

Lemma finder_contract_no_clusters : finder_contract Variant.no_clusters.
Proof.
  split; intros dc path; [discriminate|].
  cbn. by destruct (String.eqb path "*/datastore").
Qed.

(** C6. The exit codes of a run over an inventory whose finder answers as
    that of govmomi does, with an error where it finds nothing.  A run exits 1
    when the URL, the username or the password is missing, when the
    connection fails and when no datacenter is resolved, and 0 after the loop
    over the clusters, whatever happened to the single clusters.  For a
    datacenter without clusters the listing answers with an error and the run
    exits 1, not 0: a listing without error is never empty, so that the exit 0
    of lines 120 to 123 is never reached, and a run that exits 0 has listed at
    least one cluster. *)
Theorem exit_codes_with_finder_contract (encS : string -> string)
    (encF : float64 -> string) parsed inv :
  finder_contract inv ->
  let run := main encS encF parsed inv in
  (~ credentials_given parsed -> exit_code run = 1)
  /\ (credentials_given parsed ->
      (forall err, connectToVSphere inv parsed = Err err -> exit_code run = 1)
      /\ (connectToVSphere inv parsed = Ok tt ->
          (forall err, resolveDatacenter inv parsed = Err err -> exit_code run = 1)
          /\ (forall dc, resolveDatacenter inv parsed = Ok dc ->
                (forall err,
                    finder_ClusterComputeResourceList inv dc "*" = Err err ->
                    exit_code run = 1)
                /\ (forall clusters,
                      finder_ClusterComputeResourceList inv dc "*" = Ok clusters ->
                      clusters <> [] /\ exit_code run = 0))))
  /\ (exit_code run = 0 ->
      exists dc cluster clusters,
        resolveDatacenter inv parsed = Ok dc
        /\ finder_ClusterComputeResourceList inv dc "*" = Ok (cluster :: clusters)).
Proof.
  intros [Hclusters _]. cbn zeta. unfold main. split; [|split].
  - intros Hmiss. by rewrite parseFlags_missing.
  - intros Hgiven. rewrite parseFlags_given by done. split.
    + intros err Hconn. by rewrite Hconn.
    + intros Hconn. rewrite Hconn. split.
      * intros err Hdc. rewrite Hdc. unfold listDatacentersAndExit.
        destruct (finder_DatacenterList inv "*") as [dcs|]; [|done].
        by destruct (length dcs =? 0)%nat.
      * intros dc Hdc. rewrite Hdc, reportDatacenter_exit_code. split.
        -- by intros err ->.
        -- intros clusters Hlist. rewrite Hlist. split; [|done].
           intros ->. by apply (Hclusters dc "*").
  - unfold parseFlags.
    destruct (String.eqb (URL parsed) EmptyString
              || String.eqb (Username parsed) EmptyString
              || String.eqb (Password parsed) EmptyString); [done|].
    destruct (connectToVSphere inv parsed) as [[]|err]; [|done].
    destruct (resolveDatacenter inv parsed) as [dc|err].
    + rewrite reportDatacenter_exit_code.
      destruct (finder_ClusterComputeResourceList inv dc "*") as [[|c clusters]|err] eqn:Hlist.
      * by destruct (Hclusters dc "*").
      * intros _. by exists dc, c, clusters.
      * done.
    + unfold listDatacentersAndExit.
      destruct (finder_DatacenterList inv "*") as [dcs|]; [|done].
      by destruct (length dcs =? 0)%nat.
Qed.

Lemma exit_codes_with_finder_contract_witness :
  finder_contract Variant.no_clusters
  /\ exit_code (main Example.encodeString Example.encodeFloat
                  (Example.config false) Variant.no_clusters) = 1
  /\ exit_code (main Example.encodeString Example.encodeFloat
                  (Example.config true) Variant.no_clusters) = 1
  /\ exit_code (main Example.encodeString Example.encodeFloat
                  Variant.no_password Example.inventory) = 1
  /\ exit_code (main Example.encodeString Example.encodeFloat
                  (Example.config false) Variant.unreachable) = 1
  /\ exit_code (main Example.encodeString Example.encodeFloat
                  (Example.config false) Variant.no_datacenter) = 1
  /\ exit_code (main Example.encodeString Example.encodeFloat
                  (Example.config true) Example.inventory) = 0.
Proof.
  assert (Hgiven : forall json, credentials_given (Example.config json))
    by (intros json; repeat split; discriminate).
  assert (Hunreachable : finder_contract Variant.unreachable)
    by exact finder_contract_example.
  assert (Hno_datacenter : finder_contract Variant.no_datacenter)
    by exact finder_contract_example.
  split; [exact finder_contract_no_clusters|].
  split.
  { destruct (exit_codes_with_finder_contract Example.encodeString Example.encodeFloat
                (Example.config false) Variant.no_clusters finder_contract_no_clusters)
      as (_ & Hrun & _).
    destruct (Hrun (Hgiven false)) as [_ Hconn].
    destruct (Hconn eq_refl) as [_ Hdc].
    destruct (Hdc Example.dc01 eq_refl) as [Hnone _].
    exact (Hnone "cluster '*' not found" eq_refl). }
  split.
  { destruct (exit_codes_with_finder_contract Example.encodeString Example.encodeFloat
                (Example.config true) Variant.no_clusters finder_contract_no_clusters)
      as (_ & Hrun & _).
    destruct (Hrun (Hgiven true)) as [_ Hconn].
    destruct (Hconn eq_refl) as [_ Hdc].
    destruct (Hdc Example.dc01 eq_refl) as [Hnone _].
    exact (Hnone "cluster '*' not found" eq_refl). }
  split.
  { apply (exit_codes_with_finder_contract Example.encodeString Example.encodeFloat
             Variant.no_password Example.inventory finder_contract_example).
    intros (_ & _ & Hp). by apply Hp. }
  split.
  { destruct (exit_codes_with_finder_contract Example.encodeString Example.encodeFloat
                (Example.config false) Variant.unreachable Hunreachable) as (_ & Hrun & _).
    destruct (Hrun (Hgiven false)) as [Hconn _].
    exact (Hconn "dial tcp: connection refused" eq_refl). }
  split.
  { destruct (exit_codes_with_finder_contract Example.encodeString Example.encodeFloat
                (Example.config false) Variant.no_datacenter Hno_datacenter)
      as (_ & Hrun & _).
    destruct (Hrun (Hgiven false)) as [_ Hconn].
    destruct (Hconn eq_refl) as [Hdc _].
    exact (Hdc "datacenter not found" eq_refl). }
  destruct (exit_codes_with_finder_contract Example.encodeString Example.encodeFloat
              (Example.config true) Example.inventory finder_contract_example)
    as (_ & Hrun & _).
  destruct (Hrun (Hgiven true)) as [_ Hconn].
  destruct (Hconn eq_refl) as [_ Hdc].
  destruct (Hdc Example.dc01 eq_refl) as [_ Hsome].
  exact (proj2 (Hsome [Example.cluster01; Example.cluster02] eq_refl)).
Defined.

(** ** A datacenter without clusters, and what structured mode writes *)

Lemma append_inv_head (a b c : string) : a +:+ b = a +:+ c -> b = c.
Proof.
  induction a as [|x a IH]; intros H; [exact H|].
  change (String x (a +:+ b) = String x (a +:+ c)) in H.
  injection H as H. by apply IH.
Qed.

(** C9. Over an inventory whose finder answers as that of govmomi does, the
    text a run writes is never that of lines 120 to 123, the line "No clusters
    found in the selected datacenter." (in text mode after the line of the
    datacenter): the listing of the clusters of a datacenter without clusters
    answers with an error, and the run writes "Error getting clusters: " with
    that error and exits 1 in both output modes; in structured mode that line
    is all that is written, and it is no JSON document. *)
Theorem no_clusters_line_is_never_written (encS : string -> string)
    (encF : float64 -> string) parsed inv dc :
  finder_contract inv ->
  credentials_given parsed ->
  connectToVSphere inv parsed = Ok tt ->
  resolveDatacenter inv parsed = Ok dc ->
  let banner := if OutputJSON parsed then EmptyString
                else "Using datacenter: " +:+ dc_Name dc +:+ LF in
  stdout (main encS encF parsed inv)
  <> banner +:+ "No clusters found in the selected datacenter." +:+ LF
  /\ (forall err,
        finder_ClusterComputeResourceList inv dc "*" = Err err ->
        main encS encF parsed inv
        = os_Exit (banner +:+ "Error getting clusters: " +:+ err +:+ LF) 1).
Proof.
  intros [Hclusters _] Hgiven Hconn Hdc. cbn zeta.
  assert (Hmain : main encS encF parsed inv = reportDatacenter encS encF inv parsed dc).
  { unfold main. by rewrite parseFlags_given, Hconn, Hdc. }
  rewrite Hmain, reportDatacenter_eq. cbn zeta. split.
  - destruct (finder_ClusterComputeResourceList inv dc "*") as [[|c clusters]|err] eqn:Hlist.
    + by destruct (Hclusters dc "*").
    + destruct (OutputJSON parsed); cbn [stdout os_Exit]; intros H.
      * apply (f_equal (String.get 0)) in H. lazy in H. discriminate H.
      * apply append_inv_head, (f_equal (String.get 0)) in H. lazy in H. discriminate H.
    + cbn [stdout os_Exit]. intros H.
      apply append_inv_head, (f_equal (String.get 0)) in H. lazy in H. discriminate H.
  - intros err Hlist. by rewrite Hlist.
Qed.

Lemma no_clusters_line_is_never_written_witness :
  finder_contract Variant.no_clusters
  /\ main Example.encodeString Example.encodeFloat (Example.config true) Variant.no_clusters
     = os_Exit (text_lines ["Error getting clusters: cluster '*' not found"]) 1
  /\ main Example.encodeString Example.encodeFloat (Example.config false) Variant.no_clusters
     = os_Exit (text_lines ["Using datacenter: DC01";
                            "Error getting clusters: cluster '*' not found"]) 1.
Proof.
  assert (Hgiven : forall json, credentials_given (Example.config json))
    by (intros json; repeat split; discriminate).
  split; [exact finder_contract_no_clusters|]. split.
  - exact (proj2 (no_clusters_line_is_never_written Example.encodeString Example.encodeFloat
                    (Example.config true) Variant.no_clusters Example.dc01
                    finder_contract_no_clusters (Hgiven true) eq_refl eq_refl)
             "cluster '*' not found" eq_refl).
  - exact (proj2 (no_clusters_line_is_never_written Example.encodeString Example.encodeFloat
                    (Example.config false) Variant.no_clusters Example.dc01
                    finder_contract_no_clusters (Hgiven false) eq_refl eq_refl)
             "cluster '*' not found" eq_refl).
Defined.

(** C10. In structured mode the loop over the clusters writes nothing: no
    heading, no line of a report, no error line for a cluster; the line of the
    datacenter is not written either.  A run that reaches the end of the loop
    writes the JSON document of the report and a newline, and nothing else. *)
Theorem json_mode_writes_only_the_document (encS : string -> string)
    (encF : float64 -> string) parsed inv dc clusters :
  OutputJSON parsed = true ->
  credentials_given parsed ->
  connectToVSphere inv parsed = Ok tt ->
  resolveDatacenter inv parsed = Ok dc ->
  finder_ClusterComputeResourceList inv dc "*" = Ok clusters ->
  clusters <> [] ->
  (forall infraInfo cluster,
      fst (cluster_body parsed inv dc infraInfo cluster) = EmptyString)
  /\ exists infraInfo jsonOutput,
       range clusters (cluster_body parsed inv dc) (InfrastructureInfo_init parsed dc)
       = (EmptyString, infraInfo)
       /\ ii_Datacenter infraInfo = dc_Name dc
       /\ json_MarshalIndent encS encF infraInfo = Ok jsonOutput
       /\ main encS encF parsed inv = os_Exit (jsonOutput +:+ LF) 0.
Proof.
  intros HJ Hgiven Hconn Hdc Hlist Hne. split.
  - intros infraInfo cluster. by rewrite cluster_body_eq, HJ.
  - eexists _, _. rewrite range_cluster_body, HJ. split; [reflexivity|].
    split; [unfold add_clusters, InfrastructureInfo_init; by rewrite HJ|].
    split; [apply json_MarshalIndent_clusters|].
    unfold main. rewrite parseFlags_given, Hconn, Hdc by done.
    rewrite reportDatacenter_eq, Hlist, HJ. cbn zeta.
    by destruct clusters.
Qed.

Lemma json_mode_writes_only_the_document_witness :
  exists infraInfo jsonOutput,
    map ci_Name (ii_Clusters infraInfo) = ["Cluster01"]
    /\ json_MarshalIndent Example.encodeString Example.encodeFloat infraInfo = Ok jsonOutput
    /\ main Example.encodeString Example.encodeFloat (Example.config true) Example.inventory
       = os_Exit (jsonOutput +:+ LF) 0.
Proof.
  assert (Hgiven : credentials_given (Example.config true))
    by (repeat split; discriminate).
  assert (Hne : [Example.cluster01; Example.cluster02] <> []) by discriminate.
  destruct (json_mode_writes_only_the_document Example.encodeString Example.encodeFloat
              (Example.config true) Example.inventory Example.dc01
              [Example.cluster01; Example.cluster02]
              eq_refl Hgiven eq_refl eq_refl eq_refl Hne)
    as (_ & infraInfo & jsonOutput & Hrange & _ & Hjson & Hmain).
  exists infraInfo, jsonOutput. split; [|split; assumption].
  rewrite range_cluster_body in Hrange. cbn [Example.config OutputJSON] in Hrange.
  injection Hrange as <-. vm_compute. reflexivity.
Defined.

(** ** Folder discovery *)







(** * Further properties of the program *)

(** ** Before the report: credentials, connection, datacenter *)

(** X1. When the URL, the username or the password is empty, the run writes
    the two lines of [parseFlags] and exits 1, whatever the inventory and the
    output mode: nothing is asked of the server. *)
Theorem missing_credentials_stop_the_run (encS : string -> string) (encF : float64 -> string)
    parsed inv :
  URL parsed = EmptyString \/ Username parsed = EmptyString \/ Password parsed = EmptyString ->
  main encS encF parsed inv
  = os_Exit ("Must specify vSphere URL, username, and password" +:+ LF +:+ "Usage:" +:+ LF) 1.
Proof.
  intros Hmiss. unfold main. rewrite parseFlags_missing; [done|].
  intros (Hu & Hn & Hp). destruct Hmiss as [H|[H|H]]; congruence.
Qed.

Lemma missing_credentials_stop_the_run_witness :
  main Example.encodeString Example.encodeFloat Variant.no_password Variant.unreachable
  = os_Exit ("Must specify vSphere URL, username, and password" +:+ LF +:+ "Usage:" +:+ LF) 1.
Proof.
  apply (missing_credentials_stop_the_run Example.encodeString Example.encodeFloat
           Variant.no_password Variant.unreachable).
  right. right. reflexivity.
Defined.

(** X2. The connection is made in three steps, the parsing of the URL, the
    new client and the login.  When one fails the run writes the error of the
    first step that failed after "Error connecting to vSphere: " and exits 1;
    the connection succeeds when none fails. *)
Theorem connection_reports_first_failed_step (encS : string -> string)
    (encF : float64 -> string) parsed inv :
  credentials_given parsed ->
  match first_error [soap_ParseURL inv (URL parsed);
                     vim25_NewClient inv (URL parsed) (Insecure parsed);
                     sm_Login inv (Username parsed) (Password parsed)] with
  | Some err =>
      main encS encF parsed inv = os_Exit ("Error connecting to vSphere: " +:+ err +:+ LF) 1
  | None => connectToVSphere inv parsed = Ok tt
  end.
Proof.
  intros Hgiven. unfold main, connectToVSphere. rewrite parseFlags_given by done.
  cbn [first_error].
  destruct (soap_ParseURL inv (URL parsed)); [|done].
  destruct (vim25_NewClient inv (URL parsed) (Insecure parsed)); [|done].
  by destruct (sm_Login inv (Username parsed) (Password parsed)).
Qed.

Lemma connection_reports_first_failed_step_witness :
  main Example.encodeString Example.encodeFloat (Example.config true) Variant.unreachable
  = os_Exit ("Error connecting to vSphere: dial tcp: connection refused" +:+ LF) 1.
Proof.
  assert (Hgiven : credentials_given (Example.config true))
    by (repeat split; discriminate).
  exact (connection_reports_first_failed_step Example.encodeString Example.encodeFloat
           (Example.config true) Variant.unreachable Hgiven).
Defined.

Lemma range_Printf {X} (l : list X) (line : X -> string) :
  range l (fun _ x => Printf (line x)) tt = (strings_concat (map line l), tt).
Proof.
  induction l as [|x l IH]; [done|].
  cbn [range]. rewrite bind_eq. cbn [Printf fst snd]. by rewrite IH.
Qed.

(** X3. When no datacenter is resolved the run exits 1 in both output modes
    and never writes the error of the lookup that failed: it writes the names
    of all datacenters, one line each in the order listed, between a heading
    and the advice to use the flag; or that there is no datacenter; or the
    error of the listing. *)
Theorem unresolved_datacenter_lists_all (encS : string -> string) (encF : float64 -> string)
    parsed inv err :
  credentials_given parsed ->
  connectToVSphere inv parsed = Ok tt ->
  resolveDatacenter inv parsed = Err err ->
  main encS encF parsed inv
  = match finder_DatacenterList inv "*" with
    | Err err' => os_Exit ("Error: " +:+ err' +:+ LF) 1
    | Ok [] =>
        os_Exit ("No datacenters found. Please check your vSphere environment." +:+ LF) 1
    | Ok dcs =>
        os_Exit ("Available datacenters:" +:+ LF
                 +:+ strings_concat (map (fun dc => "- " +:+ dc_Name dc +:+ LF) dcs)
                 +:+ LF +:+ "Please specify a datacenter using the -datacenter flag." +:+ LF) 1
    end.
Proof.
  intros Hgiven Hconn Hdc. unfold main. rewrite parseFlags_given, Hconn, Hdc by done.
  unfold listDatacentersAndExit.
  destruct (finder_DatacenterList inv "*") as [[|dc dcs]|]; [done| |done].
  cbn [length Nat.eqb]. f_equal.
  rewrite bind_eq, bind_eq, range_Printf. cbn [Println fst snd].
  by rewrite !append_assoc.
Qed.

Lemma unresolved_datacenter_lists_all_witness :
  main Example.encodeString Example.encodeFloat (Example.config true) Variant.no_datacenter
  = os_Exit (text_lines ["Available datacenters:"; "- DC01"; EmptyString;
                         "Please specify a datacenter using the -datacenter flag."]) 1.
Proof.
  assert (Hgiven : credentials_given (Example.config true))
    by (repeat split; discriminate).
  exact (unresolved_datacenter_lists_all Example.encodeString Example.encodeFloat
           (Example.config true) Variant.no_datacenter "datacenter not found"
           Hgiven eq_refl eq_refl).
Defined.

(** X4. A datacenter named in the configuration is the only one looked up:
    when it is not found the run exits 1 without a report, also when the
    inventory has a default datacenter. *)
Theorem named_datacenter_has_no_fallback (encS : string -> string) (encF : float64 -> string)
    parsed inv err :
  credentials_given parsed ->
  connectToVSphere inv parsed = Ok tt ->
  Datacenter parsed <> EmptyString ->
  finder_Datacenter inv (Datacenter parsed) = Err err ->
  resolveDatacenter inv parsed = Err err
  /\ main encS encF parsed inv = listDatacentersAndExit inv
  /\ exit_code (main encS encF parsed inv) = 1.
Proof.
  intros Hgiven Hconn Hname Hfind.
  assert (Hdc : resolveDatacenter inv parsed = Err err).
  { unfold resolveDatacenter. apply String.eqb_neq in Hname. by rewrite Hname. }
  assert (Hmain : main encS encF parsed inv = listDatacentersAndExit inv).
  { unfold main. by rewrite parseFlags_given, Hconn, Hdc. }
  split; [done|]. split; [done|]. rewrite Hmain. unfold listDatacentersAndExit.
  destruct (finder_DatacenterList inv "*") as [dcs|]; [|done].
  by destruct (length dcs =? 0)%nat.
Qed.

Lemma named_datacenter_has_no_fallback_witness :
  finder_DefaultDatacenter Example.inventory = Ok Example.dc01
  /\ exit_code (main Example.encodeString Example.encodeFloat
                  More.config_DC02 Example.inventory) = 1.
Proof.
  split; [reflexivity|].
  assert (Hgiven : credentials_given More.config_DC02) by (repeat split; discriminate).
  assert (Hname : Datacenter More.config_DC02 <> EmptyString) by discriminate.
  exact (proj2 (proj2 (named_datacenter_has_no_fallback Example.encodeString
                         Example.encodeFloat More.config_DC02 Example.inventory
                         "datacenter not found" Hgiven eq_refl Hname eq_refl))).
Defined.

(** X5. A run exits 0 exactly when the credentials are given, the connection
    is made, a datacenter is resolved and its clusters are listed; it exits 1
    otherwise.  What happens to a single cluster never changes the exit code. *)
Theorem exit_zero_iff (encS : string -> string) (encF : float64 -> string) parsed inv :
  (exit_code (main encS encF parsed inv) = 0 <->
   credentials_given parsed
   /\ connectToVSphere inv parsed = Ok tt
   /\ exists dc clusters,
        resolveDatacenter inv parsed = Ok dc
        /\ finder_ClusterComputeResourceList inv dc "*" = Ok clusters)
  /\ (exit_code (main encS encF parsed inv) = 0 \/ exit_code (main encS encF parsed inv) = 1).
Proof.
  unfold main, parseFlags, credentials_given.
  destruct (String.eqb_spec (URL parsed) EmptyString) as [Hu|Hu];
    [cbn; split; [split; [done|tauto]|by right]|].
  destruct (String.eqb_spec (Username parsed) EmptyString) as [Hn|Hn];
    [cbn; split; [split; [done|tauto]|by right]|].
  destruct (String.eqb_spec (Password parsed) EmptyString) as [Hp|Hp];
    [cbn; split; [split; [done|tauto]|by right]|].
  cbn [orb].
  destruct (connectToVSphere inv parsed) as [[]|err];
    [|cbn; split; [split; [done|by intros (_ & ? & _)]|by right]].
  destruct (resolveDatacenter inv parsed) as [dc|err].
  - rewrite reportDatacenter_exit_code.
    destruct (finder_ClusterComputeResourceList inv dc "*") as [clusters|err] eqn:Hlist.
    + split; [|by left]. split; [|done]. intros _. repeat split; try done.
      by exists dc, clusters.
    + split; [|by right]. split; [done|].
      intros (_ & _ & dc' & clusters & Hdc & Hl). congruence.
  - assert (Hexit : exit_code (listDatacentersAndExit inv) = 1).
    { unfold listDatacentersAndExit.
      destruct (finder_DatacenterList inv "*") as [dcs|]; [|done].
      by destruct (length dcs =? 0)%nat. }
    rewrite Hexit. split; [|by right]. split; [done|].
    by intros (_ & _ & dc' & clusters & Hdc & _).
Qed.

(** ** The text report of a run *)

Lemma length_append (a b : string) :
  String.length (a +:+ b) = (String.length a + String.length b)%nat.
Proof.
  induction a as [|x a IH]; [done|].
  change (S (String.length (a +:+ b)) = S (String.length a + String.length b)).
  by rewrite IH.
Qed.

Lemma length_strings_Repeat (s : string) (count : nat) :
  String.length (strings_Repeat s count) = (count * String.length s)%nat.
Proof.
  induction count as [|n IH]; [done|].
  cbn [strings_Repeat]. rewrite length_append, IH. lia.
Qed.

(** X6. In text mode the section of a cluster begins with an empty line, the
    line "Cluster: " and the name, and a rule of dashes exactly as long as that
    line, whatever the name and whether the cluster can be read or not. *)
Theorem cluster_rule_underlines_heading cfg inv dc infraInfo cluster :
  OutputJSON cfg = false ->
  let title := "Cluster: " +:+ cluster_Name cluster in
  exists rule rest,
    fst (cluster_body cfg inv dc infraInfo cluster)
    = LF +:+ title +:+ LF +:+ rule +:+ LF +:+ rest
    /\ rule = strings_Repeat "-" (String.length title)
    /\ String.length rule = String.length title.
Proof.
  intros HJ. cbn zeta.
  exists (strings_Repeat "-" (String.length (cluster_Name cluster) + 9)).
  eexists. rewrite cluster_body_eq, HJ. cbn [fst].
  unfold cluster_section, cluster_heading. split.
  - rewrite !append_assoc. reflexivity.
  - rewrite length_append, length_strings_Repeat. cbn [String.length].
    split; [f_equal; lia|lia].
Qed.

Lemma cluster_rule_underlines_heading_witness :
  exists rest,
    fst (cluster_body (Example.config false) Example.inventory Example.dc01
           (InfrastructureInfo_init (Example.config false) Example.dc01) Example.cluster02)
    = LF +:+ "Cluster: Cluster02" +:+ LF +:+ "------------------" +:+ LF +:+ rest.
Proof.
  destruct (cluster_rule_underlines_heading (Example.config false) Example.inventory
              Example.dc01 (InfrastructureInfo_init (Example.config false) Example.dc01)
              Example.cluster02 eq_refl) as (rule & rest & Hout & Hrule & _).
  exists rest. rewrite Hout, Hrule. reflexivity.
Defined.

(** X7. In text mode a run that lists the clusters writes the line of the
    datacenter and then one section for each cluster, in the order the clusters
    were listed: the heading, and below it the error line of the cluster or its
    storage pods and standalone datastores.  It builds no structured report and
    exits 0. *)
Theorem text_run_is_banner_and_sections (encS : string -> string)
    (encF : float64 -> string) parsed inv dc clusters :
  OutputJSON parsed = false ->
  credentials_given parsed ->
  connectToVSphere inv parsed = Ok tt ->
  resolveDatacenter inv parsed = Ok dc ->
  finder_ClusterComputeResourceList inv dc "*" = Ok clusters ->
  clusters <> [] ->
  main encS encF parsed inv
  = os_Exit ("Using datacenter: " +:+ dc_Name dc +:+ LF
             +:+ strings_concat
                   (map (fun cluster =>
                           cluster_heading cluster
                           +:+ match readCluster inv dc cluster with
                               | Err line => line
                               | Ok (storagePods, datastores) =>
                                   cluster_text storagePods datastores
                               end) clusters)) 0
  /\ snd (range clusters (cluster_body parsed inv dc) (InfrastructureInfo_init parsed dc))
     = {| ii_Datacenter := EmptyString; ii_Clusters := [] |}.
Proof.
  intros HJ Hgiven Hconn Hdc Hlist Hne. split.
  - unfold main. rewrite parseFlags_given, Hconn, Hdc by done.
    rewrite reportDatacenter_eq, Hlist, HJ. cbn zeta.
    destruct clusters; [done|]. by rewrite !append_assoc.
  - rewrite range_cluster_body, HJ. cbn [snd]. unfold InfrastructureInfo_init.
    by rewrite HJ.
Qed.

Lemma text_run_is_banner_and_sections_witness :
  stdout (main Example.encodeString Example.encodeFloat (Example.config false)
            Example.inventory)
  = "Using datacenter: DC01" +:+ LF
    +:+ strings_concat
          (map (fun cluster =>
                  cluster_heading cluster
                  +:+ match readCluster Example.inventory Example.dc01 cluster with
                      | Err line => line
                      | Ok (storagePods, datastores) => cluster_text storagePods datastores
                      end) [Example.cluster01; Example.cluster02]).
Proof.
  assert (Hgiven : credentials_given (Example.config false))
    by (repeat split; discriminate).
  assert (Hne : [Example.cluster01; Example.cluster02] <> []) by discriminate.
  destruct (text_run_is_banner_and_sections Example.encodeString Example.encodeFloat
              (Example.config false) Example.inventory Example.dc01
              [Example.cluster01; Example.cluster02]
              eq_refl Hgiven eq_refl eq_refl eq_refl Hne) as [Hmain _].
  rewrite Hmain. reflexivity.
Defined.

(** ** The structured report of a run *)

Lemma cluster_entry_name cfg inv dc cluster ci :
  OutputJSON cfg = true ->
  cluster_entry cfg inv dc cluster = Some ci -> ci_Name ci = cluster_Name cluster.
Proof.
  intros HJ. unfold cluster_entry.
  destruct (readCluster inv dc cluster) as [[pods dss]|]; [|done].
  intros [= <-]. unfold cluster_report, ClusterInfo_init. by rewrite HJ.
Qed.

(** X8. In structured mode the report of a run names the datacenter and holds
    one entry for each cluster that could be read, under the name of the
    cluster and in the order the clusters were listed; the clusters that could
    not be read leave no trace. *)
Theorem structured_clusters_in_listing_order cfg inv dc clusters :
  OutputJSON cfg = true ->
  let infraInfo :=
    snd (range clusters (cluster_body cfg inv dc) (InfrastructureInfo_init cfg dc)) in
  ii_Datacenter infraInfo = dc_Name dc
  /\ map ci_Name (ii_Clusters infraInfo)
     = map cluster_Name (List.filter (readable inv dc) clusters)
  /\ length (ii_Clusters infraInfo) = length (List.filter (readable inv dc) clusters).
Proof.
  intros HJ. cbn zeta. rewrite range_cluster_body, HJ. cbn [snd].
  unfold add_clusters, InfrastructureInfo_init. rewrite HJ. cbn [ii_Datacenter ii_Clusters app].
  split; [done|].
  assert (Hnames : map ci_Name (omap (cluster_entry cfg inv dc) clusters)
                   = map cluster_Name (List.filter (readable inv dc) clusters)).
  { induction clusters as [|c clusters IH]; [done|].
    cbn [omap list_omap List.filter]. unfold readable at 1.
    destruct (cluster_entry cfg inv dc c) as [ci|] eqn:Hc.
    - pose proof (cluster_entry_name cfg inv dc c ci HJ Hc) as Hname.
      unfold cluster_entry in Hc. destruct (readCluster inv dc c); [|done].
      cbn [map]. by rewrite Hname, IH.
    - unfold cluster_entry in Hc. destruct (readCluster inv dc c) as [[pods dss]|]; [done|].
      exact IH. }
  split; [exact Hnames|].
  by rewrite <- (length_map ci_Name), Hnames, length_map.
Qed.

Lemma structured_clusters_in_listing_order_witness :
  map ci_Name
    (ii_Clusters
       (snd (range [Example.cluster02; Example.cluster01; Example.cluster02]
               (cluster_body (Example.config true) Example.inventory Example.dc01)
               (InfrastructureInfo_init (Example.config true) Example.dc01))))
  = ["Cluster01"].
Proof.
  destruct (structured_clusters_in_listing_order (Example.config true) Example.inventory
              Example.dc01 [Example.cluster02; Example.cluster01; Example.cluster02] eq_refl)
    as (_ & Hnames & _).
  rewrite Hnames. reflexivity.
Defined.

(** ** The datastore map *)

Lemma NoDup_map_inj {A B} (f : A -> B) (l : list A) (x y : A) :
  List.NoDup (map f l) -> In x l -> In y l -> f x = f y -> x = y.
Proof.
  induction l as [|a l IH]; [done|]. cbn [map]. intros Hnd Hx Hy Hf.
  apply List.NoDup_cons_iff in Hnd as [Ha Hnd].
  destruct Hx as [->|Hx], Hy as [->|Hy]; [done| | |by apply IH].
  - exfalso. apply Ha. rewrite Hf. by apply in_map.
  - exfalso. apply Ha. rewrite <- Hf. by apply in_map.
Qed.

(** X9. The map of lines 199 and 214 to 216 answers a reference value with
    the last datastore retrieved under it, and with nothing exactly when no
    datastore was retrieved under it; when the reference values retrieved are
    distinct, every datastore retrieved is found under its own. *)
Theorem datastoreMap_lookup dss v :
  build_datastoreMap dss !! v
  = List.find (fun ds => String.eqb (refValue ds) v) (rev dss)
  /\ (build_datastoreMap dss !! v = None <-> ~ In v (map refValue dss))
  /\ (forall ds, build_datastoreMap (dss ++ [ds]) !! refValue ds = Some ds)
  /\ (forall ds, List.NoDup (map refValue dss) -> In ds dss ->
                 build_datastoreMap dss !! refValue ds = Some ds).
Proof.
  assert (Hfind : forall l w, build_datastoreMap l !! w
                         = List.find (fun ds => String.eqb (refValue ds) w) (rev l)).
  { intros l w. unfold build_datastoreMap. rewrite build_datastoreMap_fold, lookup_empty.
    by destruct (List.find _ (rev l)). }
  split; [apply Hfind|]. split; [|split].
  - rewrite <- build_datastoreMap_is_Some. rewrite eq_None_not_Some. done.
  - intros ds. rewrite Hfind, rev_app_distr. cbn. by rewrite String.eqb_refl.
  - intros ds Hnd Hin.
    assert (Hsome : is_Some (build_datastoreMap dss !! refValue ds))
      by (apply build_datastoreMap_is_Some; by apply in_map).
    destruct Hsome as [ds' Hds']. rewrite Hds'. f_equal.
    apply build_datastoreMap_Some in Hds' as [Hin' Hv].
    by apply (NoDup_map_inj refValue dss).
Qed.

(** ** The order of a cluster report *)

Lemma build_datastoreMap_find dss v :
  build_datastoreMap dss !! v = List.find (fun ds => String.eqb (refValue ds) v) (rev dss).
Proof.
  unfold build_datastoreMap. rewrite build_datastoreMap_fold, lookup_empty.
  by destruct (List.find _ (rev dss)).
Qed.

Lemma omap_pod_entry (m : gmap string mo_Datastore) pods :
  omap (pod_entry m) pods
  = map (fun pod => {| dci_Name := pod_Name pod;
                       dci_Datastores := map datastoreInfo (pod_members m pod) |})
        (List.filter (fun pod => negb (Nat.eqb (length (pod_members m pod)) 0)) pods).
Proof.
  induction pods as [|pod pods IH]; [done|].
  cbn [omap list_omap List.filter]. unfold pod_entry at 1.
  destruct (pod_members m pod) as [|ds members] eqn:Hm; cbn; [exact IH|].
  by rewrite IH, Hm.
Qed.

Lemma find_refValue_retrieved dss children :
  map refValue
    (omap (fun childRef : ManagedObjectReference =>
             List.find (fun ds => String.eqb (refValue ds) (Value childRef)) (rev dss))
          children)
  = List.filter (fun v => existsb (String.eqb v) (map refValue dss)) (map Value children).
Proof.
  induction children as [|c children IH]; [done|].
  cbn [omap list_omap map List.filter].
  destruct (List.find (fun ds => String.eqb (refValue ds) (Value c)) (rev dss))
    as [ds|] eqn:Hfind.
  - apply List.find_some in Hfind as [Hin Hv]. apply String.eqb_eq in Hv.
    assert (Hex : existsb (String.eqb (Value c)) (map refValue dss) = true).
    { apply List.existsb_exists. exists (refValue ds). split.
      - apply in_map. by apply in_rev.
      - rewrite Hv. apply String.eqb_refl. }
    rewrite Hex. cbn [map]. by rewrite Hv, IH.
  - assert (Hex : existsb (String.eqb (Value c)) (map refValue dss) = false).
    { destruct (existsb (String.eqb (Value c)) (map refValue dss)) eqn:Hex; [|done].
      apply List.existsb_exists in Hex as (v & Hv & Heq).
      apply in_map_iff in Hv as (ds & <- & Hds).
      apply in_rev in Hds. apply (List.find_none _ _ Hfind) in Hds.
      rewrite String.eqb_sym in Heq. congruence. }
    by rewrite Hex.
Qed.

(** X10. A structured cluster report keeps the orders of what was read.  Its
    entries are those of the storage pods with a datastore of the cluster, in
    the order the pods were discovered in.  The datastores of an entry are
    found by going through the member list of the pod, in its order: each
    member whose reference value was retrieved gives the datastore retrieved
    under that value (the last one, should there be several), the others give
    nothing.  The standalone datastores are the retrieved datastores that no
    member list names, in the order they were retrieved in. *)
Theorem structured_report_keeps_order cfg pods dss cluster :
  OutputJSON cfg = true ->
  let report := snd (reportCluster cfg pods dss (ClusterInfo_init cfg cluster)) in
  let retrieved (childRef : ManagedObjectReference) :=
    List.find (fun ds => String.eqb (refValue ds) (Value childRef)) (rev dss) in
  let members pod := omap retrieved (pod_ChildEntity pod) in
  ci_Name report = cluster_Name cluster
  /\ ci_DatastoreClusters report
     = map (fun pod => {| dci_Name := pod_Name pod;
                          dci_Datastores := map datastoreInfo (members pod) |})
           (List.filter (fun pod => negb (Nat.eqb (length (members pod)) 0)) pods)
  /\ (forall pod,
        map refValue (members pod)
        = List.filter (fun v => existsb (String.eqb v) (map refValue dss))
            (map Value (pod_ChildEntity pod)))
  /\ ci_StandaloneDatastores report
     = map datastoreInfo
         (List.filter (fun ds => negb (belongsToStoragePod pods (refValue ds))) dss).
Proof.
  intros HJ. cbn zeta. rewrite reportCluster_eq, HJ. cbn [snd].
  unfold cluster_report, ClusterInfo_init. rewrite HJ.
  cbn [ci_Name ci_DatastoreClusters ci_StandaloneDatastores app].
  split; [reflexivity|]. split; [|split].
  - rewrite omap_pod_entry.
    assert (Hmembers : forall pod,
              pod_members (build_datastoreMap dss) pod
              = omap (fun childRef : ManagedObjectReference =>
                        List.find (fun ds => String.eqb (refValue ds) (Value childRef))
                          (rev dss))
                     (pod_ChildEntity pod)).
    { intros pod. unfold pod_members.
      induction (pod_ChildEntity pod) as [|c children IH]; [done|].
      cbn [omap list_omap]. by rewrite build_datastoreMap_find, IH. }
    induction pods as [|pod pods IH]; [done|].
    cbn [List.filter]. rewrite !Hmembers.
    destruct (negb (Nat.eqb (length (omap _ (pod_ChildEntity pod))) 0));
      cbn [map]; by rewrite IH, ?Hmembers.
  - intros pod. apply find_refValue_retrieved.
  - reflexivity.
Qed.

Lemma structured_report_keeps_order_witness :
  let report :=
    snd (reportCluster (Example.config true)
           [Example.pod3; Example.pod2; Example.pod1]
           [Example.dsA; Example.dsB; Example.dsC; Example.dsD]
           (ClusterInfo_init (Example.config true) Example.cluster01)) in
  ci_DatastoreClusters report
  = [{| dci_Name := "StoragePod02"; dci_Datastores := map datastoreInfo [Example.dsC] |};
     {| dci_Name := "StoragePod01";
        dci_Datastores := map datastoreInfo [Example.dsA; Example.dsB] |}]
  /\ ci_StandaloneDatastores report = map datastoreInfo [Example.dsD].
Proof.
  cbn zeta.
  destruct (structured_report_keeps_order (Example.config true)
              [Example.pod3; Example.pod2; Example.pod1]
              [Example.dsA; Example.dsB; Example.dsC; Example.dsD]
              Example.cluster01 eq_refl) as (_ & Hentries & _ & Hstandalone).
  rewrite Hentries, Hstandalone. split; reflexivity.
Defined.

(** ** The storage pods of the datastore folders *)

Lemma fold_left_child_body inv children storagePods :
  fold_left (child_body inv) children storagePods
  = storagePods
    ++ omap (fun child =>
               match child with
               | StoragePodRef pod =>
                   match pc_RetrieveOne_StoragePod inv pod with
                   | Ok podInfo => Some podInfo
                   | Err _ => None
                   end
               | OtherRef _ => None
               end) children.
Proof.
  revert storagePods. induction children as [|child children IH]; intros storagePods.
  - cbn. by rewrite app_nil_r.
  - cbn [fold_left omap list_omap]. rewrite IH. unfold child_body.
    destruct child as [pod|other]; [|done].
    destruct (pc_RetrieveOne_StoragePod inv pod); [|done].
    by rewrite <- app_assoc.
Qed.

Lemma fold_left_folder_body inv folders storagePods :
  fold_left (folder_body inv) folders storagePods
  = storagePods ++ concat (map (folder_pods inv) folders).
Proof.
  revert storagePods. induction folders as [|folder folders IH]; intros storagePods.
  - cbn. by rewrite app_nil_r.
  - cbn [fold_left map concat]. rewrite IH. unfold folder_body, folder_pods.
    destruct (folder_Children inv folder) as [children|]; [|done].
    by rewrite fold_left_child_body, <- app_assoc.
Qed.

(** X11. The storage pods of a cluster pass are those of the datastore
    folders, folder after folder and child after child.  A folder whose
    children cannot be read, a child that is no storage pod and a storage pod
    whose properties cannot be read add nothing and do not end the scan: the
    pods of [folders1 ++ folders2] are those of [folders1] followed by those of
    [folders2]. *)
Theorem collectStoragePods_concat inv folders :
  collectStoragePods inv folders = concat (map (folder_pods inv) folders)
  /\ (forall folders1 folders2,
        collectStoragePods inv (folders1 ++ folders2)
        = collectStoragePods inv folders1 ++ collectStoragePods inv folders2)
  /\ (forall folder, (exists err, folder_Children inv folder = Err err) ->
        forall before after,
          collectStoragePods inv (before ++ folder :: after)
          = collectStoragePods inv (before ++ after)).
Proof.
  assert (Hcollect : forall l, collectStoragePods inv l = concat (map (folder_pods inv) l)).
  { intros l. unfold collectStoragePods. by rewrite fold_left_folder_body. }
  split; [apply Hcollect|]. split.
  - intros folders1 folders2. by rewrite !Hcollect, map_app, concat_app.
  - intros folder [err Herr] before after.
    rewrite !Hcollect, !map_app, !concat_app. cbn [map concat].
    unfold folder_pods at 2. by rewrite Herr.
Qed.

(** ** Edge cases of a cluster report *)

Lemma standalone_datastores_no_pods dss : standalone_datastores [] dss = dss.
Proof.
  unfold standalone_datastores. induction dss as [|ds dss IH]; [done|].
  change (List.filter ?f (ds :: dss))
    with (if f ds then ds :: List.filter f dss else List.filter f dss).
  cbn beta. change (belongsToStoragePod [] (refValue ds)) with false.
  cbn [negb]. by rewrite IH.
Qed.

(** X12. Without storage pods every datastore retrieved for the cluster is
    standalone, in the order retrieved: the structured report has no datastore
    cluster, the text report says that none was found and then lists all the
    datastores, or says that there is none. *)
Theorem no_storage_pods_all_standalone cfg dss cluster :
  reportCluster cfg [] dss (ClusterInfo_init cfg cluster)
  = if OutputJSON cfg
    then (EmptyString,
          {| ci_Name := cluster_Name cluster;
             ci_DatastoreClusters := [];
             ci_StandaloneDatastores := map datastoreInfo dss |})
    else ("  No datastore clusters found for this cluster" +:+ LF
          +:+ "  Standalone Datastores:" +:+ LF
          +:+ match dss with
              | [] => "    No standalone datastores found" +:+ LF
              | _ => strings_concat (map datastoreLine dss)
              end,
          ClusterInfo_zero).
Proof.
  rewrite reportCluster_eq. unfold cluster_report, cluster_text, ClusterInfo_init.
  rewrite standalone_datastores_no_pods.
  destruct (OutputJSON cfg); [done|].
  unfold pods_text, standalone_text. by rewrite !append_assoc.
Qed.

Lemma standalone_datastores_nil pods dss :
  standalone_datastores pods dss = []
  <-> forall ds, In ds dss -> belongsToStoragePod pods (refValue ds) = true.
Proof.
  unfold standalone_datastores. induction dss as [|ds dss IH]; [by split|].
  cbn [List.filter]. destruct (belongsToStoragePod pods (refValue ds)) eqn:Hb; cbn [negb].
  - rewrite IH. split.
    + intros H d [<-|Hd]; [done|by apply H].
    + intros H d Hd. apply H. by right.
  - split; [done|]. intros H. specialize (H ds (or_introl eq_refl)). congruence.
Qed.

(** X13. When a member list names the reference value of every datastore
    retrieved for the cluster, no datastore is standalone: the structured
    report has an empty list of standalone datastores and the text report ends
    with the line that none was found. *)
Theorem all_pooled_no_standalone cfg pods dss cluster :
  (forall ds, In ds dss ->
     exists pod, In pod pods /\ In (refValue ds) (map Value (pod_ChildEntity pod))) ->
  let out := reportCluster cfg pods dss (ClusterInfo_init cfg cluster) in
  standalone_datastores pods dss = []
  /\ if OutputJSON cfg
     then ci_StandaloneDatastores (snd out) = []
     else fst out
          = pods_text (build_datastoreMap dss) pods
            +:+ "  Standalone Datastores:" +:+ LF
            +:+ "    No standalone datastores found" +:+ LF.
Proof.
  intros Hpooled. cbn zeta.
  assert (Hnil : standalone_datastores pods dss = []).
  { apply standalone_datastores_nil. intros ds Hds.
    apply belongsToStoragePod_true. by apply Hpooled. }
  split; [exact Hnil|]. rewrite reportCluster_eq.
  destruct (OutputJSON cfg) eqn:HJ; cbn [fst snd].
  - unfold cluster_report, ClusterInfo_init. rewrite HJ, Hnil. reflexivity.
  - unfold cluster_text, standalone_text. rewrite Hnil. by rewrite ?append_assoc.
Qed.

Lemma all_pooled_no_standalone_witness :
  ci_StandaloneDatastores
    (snd (reportCluster (Example.config true) [Example.pod1; Example.pod2]
            [Example.dsA; Example.dsB; Example.dsC]
            (ClusterInfo_init (Example.config true) Example.cluster01)))
  = [].
Proof.
  assert (Hpooled : forall ds, In ds [Example.dsA; Example.dsB; Example.dsC] ->
            exists pod, In pod [Example.pod1; Example.pod2]
                        /\ In (refValue ds) (map Value (pod_ChildEntity pod))).
  { intros ds [<-|[<-|[<-|[]]]].
    - exists Example.pod1. split; [by left|]. by left.
    - exists Example.pod1. split; [by left|]. right. by left.
    - exists Example.pod2. split; [right; by left|]. by left. }
  exact (proj2 (all_pooled_no_standalone (Example.config true) [Example.pod1; Example.pod2]
                  [Example.dsA; Example.dsB; Example.dsC] Example.cluster01 Hpooled)).
Defined.

(** ** Capacities as floats *)

Lemma binary_round_aux_Signbit (s : bool) (m e : Z) (l : location) :
  0 <= m ->
  float64_Signbit (binary_round_aux 53 1024 s m e l) = s.
Proof.
  intros Hm. unfold binary_round_aux.
  pose proof (shr_fexp_bound m e l Hm) as H1.
  destruct (shr_fexp 53 1024 m e l) as [r1 e1]. destruct H1 as (H1m & _ & _).
  pose proof (round_nearest_even_bound (shr_m r1) (loc_of_shr_record r1) H1m) as [H2m _].
  pose proof (shr_fexp_bound (round_nearest_even (shr_m r1) (loc_of_shr_record r1)) e1
                loc_Exact H2m) as H3.
  destruct (shr_fexp 53 1024 _ e1 loc_Exact) as [r2 e2]. destruct H3 as (H3m & _ & _).
  destruct (shr_m r2) as [|p|p]; [done| |lia].
  by destruct (e2 <=? 1024 - 53).
Qed.

Lemma float64_of_Z_Signbit (z : Z) : float64_Signbit (float64_of_Z z) = (z <? 0).
Proof.
  unfold float64_of_Z, binary_normalize, binary_round, prec64, emax64.
  destruct z as [|p|p]; [done| |];
    destruct (shl_align p 0 _) as [mz ez]; by rewrite binary_round_aux_Signbit.
Qed.

(** X14. The GB value of a capacity of any 64-bit byte count is a finite
    float, never an infinity and never a NaN, and it has the sign of the byte
    count: a capacity that is not negative is never written with a minus sign.
    So the JSON encoder accepts the report of every run, and the error of lines
    320 to 323 is never written. *)
Theorem capacity_in_GB_is_finite (encS : string -> string) (encF : float64 -> string)
    (bytes : int64) cfg inv dc clusters :
  float64_IsInfOrNaN (toGB bytes) = false
  /\ float64_Signbit (toGB bytes) = (int64_Z bytes <? 0)
  /\ json_MarshalIndent encS encF
       (snd (range clusters (cluster_body cfg inv dc) (InfrastructureInfo_init cfg dc)))
     = Ok (json_InfrastructureInfo encS encF
             (snd (range clusters (cluster_body cfg inv dc)
                     (InfrastructureInfo_init cfg dc)))).
Proof.
  split; [apply toGB_finite|]. split.
  - pose proof (float64_of_Z_Signbit (int64_Z bytes)) as Hsign.
    pose proof (toGB_bounded bytes) as Hb. unfold toGB in *.
    change (float64_of_Z bytesPerGB) with (S754_finite false 4503599627370496 (-22)) in *.
    destruct (float64_of_Z (int64_Z bytes)) as [s|s| |s m e]; cbn [float64_Signbit] in Hsign.
    + cbn. by rewrite xorb_false_r.
    + cbn. by rewrite xorb_false_r.
    + done.
    + rewrite <- Hsign. unfold float64_div, SFdiv, prec64, emax64.
      destruct (SFdiv_core_binary 53 1024 (Zpos m) e 4503599627370496 (-22))
        as [[mz ez] lz] eqn:Hcore.
      rewrite binary_round_aux_Signbit; [apply xorb_false_r|].
      unfold SFdiv_core_binary in Hcore.
      change IntDef.Z.div_eucl with Z.div_eucl in Hcore.
      change IntDef.Z.shiftl with Z.shiftl in Hcore.
      set (m' := match _ with 0 => _ | Z.pos _ => _ | Z.neg _ => _ end) in Hcore.
      assert (Hm' : 0 <= m').
      { unfold m'. destruct (_ - _ - _); [lia| |lia]. apply Z.shiftl_nonneg. lia. }
      pose proof (Z_div_mod m' (Zpos 4503599627370496) ltac:(lia)) as Hmod.
      destruct (Z.div_eucl m' (Zpos 4503599627370496)) as [q r].
      injection Hcore as <- _ _. nia.
  - rewrite range_cluster_body. destruct (OutputJSON cfg) eqn:HJ; cbn [snd].
    + apply json_MarshalIndent_clusters.
    + unfold InfrastructureInfo_init. by rewrite HJ.
Qed.

(** ** Only the values of the references are read *)

Lemma omap_map_Value (m : gmap string mo_Datastore) (children : list ManagedObjectReference) :
  omap (fun childRef => m !! Value childRef) children
  = omap (fun value => m !! value) (map Value children).
Proof.
  induction children as [|c children IH]; [done|].
  cbn [omap list_omap map]. by rewrite IH.
Qed.

Lemma childEntity_has_existsb children v :
  childEntity_has children v = existsb (fun value => String.eqb value v) (map Value children).
Proof.
  induction children as [|c children IH]; [done|].
  cbn [childEntity_has map existsb]. rewrite IH. by destruct (String.eqb (Value c) v).
Qed.

Lemma belongsToStoragePod_same_values pods1 pods2 v :
  Forall2 same_pod_values pods1 pods2 ->
  belongsToStoragePod pods1 v = belongsToStoragePod pods2 v.
Proof.
  induction 1 as [|pod1 pod2 pods1 pods2 [_ Hvalues] _ IH]; [done|].
  cbn [belongsToStoragePod]. by rewrite !childEntity_has_existsb, Hvalues, IH.
Qed.

(** X15. A cluster report reads the names of the storage pods and the values
    of their member references, and nothing else of the pods: two lists of
    storage pods that agree on these give the same report, in text and in
    structured mode, also when the types of the member references differ.  A
    member that is no datastore but carries the reference value of a datastore
    of the cluster is taken for that datastore. *)
Theorem report_reads_reference_values_only cfg pods1 pods2 dss clusterInfo :
  Forall2 same_pod_values pods1 pods2 ->
  reportCluster cfg pods1 dss clusterInfo = reportCluster cfg pods2 dss clusterInfo.
Proof.
  intros Hsame. rewrite !reportCluster_eq.
  set (m := build_datastoreMap dss).
  assert (Hmembers : forall pod1 pod2, same_pod_values pod1 pod2 ->
                       pod_members m pod1 = pod_members m pod2).
  { intros pod1 pod2 [_ Hvalues]. unfold pod_members. by rewrite !omap_map_Value, Hvalues. }
  assert (Hentries : omap (pod_entry m) pods1 = omap (pod_entry m) pods2).
  { induction Hsame as [|pod1 pod2 pods1 pods2 Hpod _ IH]; [done|].
    cbn [omap list_omap]. rewrite IH. unfold pod_entry.
    rewrite (Hmembers pod1 pod2 Hpod). by destruct Hpod as [-> _]. }
  assert (Htexts : map (pod_text m) pods1 = map (pod_text m) pods2).
  { clear Hentries. induction Hsame as [|pod1 pod2 pods1 pods2 Hpod _ IH]; [done|].
    cbn [map]. rewrite IH. unfold pod_text.
    rewrite (Hmembers pod1 pod2 Hpod). by destruct Hpod as [-> _]. }
  assert (Htext : pods_text m pods1 = pods_text m pods2).
  { unfold pods_text. rewrite Htexts. by destruct Hsame. }
  assert (Hstandalone : standalone_datastores pods1 dss = standalone_datastores pods2 dss).
  { unfold standalone_datastores. apply filter_ext. intros ds.
    by rewrite (belongsToStoragePod_same_values pods1 pods2). }
  unfold cluster_report, cluster_text. fold m. by rewrite Hentries, Htext, Hstandalone.
Qed.

Lemma report_reads_reference_values_only_witness :
  reportCluster (Example.config false) [Example.pod1]
    [Example.dsA; Example.dsB; Example.dsC; Example.dsD] ClusterInfo_zero
  = reportCluster (Example.config false) [More.pod1_retyped]
      [Example.dsA; Example.dsB; Example.dsC; Example.dsD] ClusterInfo_zero.
Proof.
  apply (report_reads_reference_values_only (Example.config false)
           [Example.pod1] [More.pod1_retyped]).
  constructor; [|constructor]. split; reflexivity.
Defined.

(** ** The error of folder discovery *)

(** X16. When the three lookups of the datastore folders fail, the text
    report of the cluster shows, below the heading, the error of the last one,
    the lookup by the inventory path of the datacenter; the errors of the two
    lookups by relative path are never written, and the details of the cluster
    are not asked for. *)
Theorem folder_discovery_error_is_the_last cfg inv dc infraInfo cluster err1 err2 err3 :
  OutputJSON cfg = false ->
  finder_FolderList inv dc "*/datastores" = Err err1 ->
  finder_FolderList inv dc "*/datastore" = Err err2 ->
  finder_FolderList inv dc (dc_InventoryPath dc +:+ "/datastore") = Err err3 ->
  cluster_body cfg inv dc infraInfo cluster
  = (LF +:+ "Cluster: " +:+ cluster_Name cluster +:+ LF
     +:+ strings_Repeat "-" (String.length (cluster_Name cluster) + 9) +:+ LF
     +:+ "  Error finding datastore folders: " +:+ err3 +:+ LF,
     infraInfo).
Proof.
  intros HJ H1 H2 H3. rewrite cluster_body_eq, HJ.
  unfold cluster_section, readCluster, datastoreFolders, cluster_heading.
  rewrite H1, H2, H3. by rewrite !append_assoc.
Qed.

Lemma folder_discovery_error_is_the_last_witness :
  fst (cluster_body (Example.config false) More.no_folders Example.dc01
         (InfrastructureInfo_init (Example.config false) Example.dc01) Example.cluster01)
  = text_lines [EmptyString; "Cluster: Cluster01"; "------------------";
                "  Error finding datastore folders: third lookup failed"].
Proof.
  rewrite (folder_discovery_error_is_the_last (Example.config false) More.no_folders
             Example.dc01 (InfrastructureInfo_init (Example.config false) Example.dc01)
             Example.cluster01 "first lookup failed" "second lookup failed"
             "third lookup failed" eq_refl eq_refl eq_refl eq_refl).
  reflexivity.
Defined.

(** ** The clusters cannot be listed *)

(** X17. When the clusters of the datacenter cannot be listed the run writes
    the error after "Error getting clusters: " and exits 1 without a report; in
    text mode the line of the datacenter was already written, in structured
    mode the error line is all that is written and it is no JSON document. *)
Theorem cluster_listing_error_stops_the_run (encS : string -> string)
    (encF : float64 -> string) parsed inv dc err :
  credentials_given parsed ->
  connectToVSphere inv parsed = Ok tt ->
  resolveDatacenter inv parsed = Ok dc ->
  finder_ClusterComputeResourceList inv dc "*" = Err err ->
  main encS encF parsed inv
  = os_Exit ((if OutputJSON parsed then EmptyString
              else "Using datacenter: " +:+ dc_Name dc +:+ LF)
             +:+ "Error getting clusters: " +:+ err +:+ LF) 1.
Proof.
  intros Hgiven Hconn Hdc Hlist. unfold main.
  rewrite parseFlags_given, Hconn, Hdc by done.
  by rewrite reportDatacenter_eq, Hlist.
Qed.

Lemma cluster_listing_error_stops_the_run_witness :
  main Example.encodeString Example.encodeFloat (Example.config false) More.no_cluster_list
  = os_Exit (text_lines ["Using datacenter: DC01";
                         "Error getting clusters: permission denied"]) 1.
Proof.
  assert (Hgiven : credentials_given (Example.config false))
    by (repeat split; discriminate).
  exact (cluster_listing_error_stops_the_run Example.encodeString Example.encodeFloat
           (Example.config false) More.no_cluster_list Example.dc01 "permission denied"
           Hgiven eq_refl eq_refl eq_refl).
Defined.
